(** * kongfig: the admin API facade (src/adminApi.js)

    A shallow embedding of the module: the pagination aggregator
    [getPaginatedJson], its caching wrapper [getPaginatedJsonCache], and the
    facade built by [createApi], together with the three module-level caches
    they share.

    Conventions.
    - JavaScript values of the JSON fragment are the type [value]; numbers
      are the integers that print in full (below 10^21 in magnitude).
    - A promise is represented by the way it settles ([settled]); the calls
      of one scenario run one after the other, each awaited before the next.
    - The transport, the router and the version parser live in other modules
      and are taken as the operations of the class [Collaborators].
    - [getPaginatedJson] follows [next] links for as long as the backend
      supplies full pages, so it is defined with a bound ([fuel]) on the
      number of GET requests; [None] means the bound was too small. *)

From stdpp Require Import base strings gmap list pretty.

Set Warnings "-register-all".

(** ** JavaScript values *)

Inductive value : Type :=
| JUndefined
| JNull
| JBool (b : bool)
| JNum (n : Z)
| JStr (s : string)
| JArr (items : list value)
| JObj (fields : list (string * value)).

(** The own keys of a parsed object, in insertion order. *)
Definition keys (fields : list (string * value)) : list string := fields.*1.

Fixpoint lookup_field (k : string) (fields : list (string * value)) : option value :=
  match fields with
  | [] => None
  | (k', v) :: rest => if decide (k' = k) then Some v else lookup_field k rest
  end.

(** The index keys "0", "1", ... of an array or string of length [n]. *)
Definition index_keys (n : nat) : list string := (λ i : nat, pretty i) <$> seq 0 n.

(** ** Responses, errors, promises *)

(** What [requester] resolves to: [json] is what [r.json()] yields, [None]
    when the body does not parse. *)
Record Response : Type := {
  ok : bool;
  status : Z;
  statusText : string;
  json : option value;
}.

Inductive error : Type :=
| HttpError (message : string) (response : Response)
| TypeError
| SyntaxError
| TransportError (reason : string).

(** The result of evaluating an expression: a value, or a thrown error. *)
Inductive completion (A : Type) : Type :=
| Normal (a : A)
| Throw (e : error).
Arguments Normal {A} a.
Arguments Throw {A} e.

(** A settled promise. *)
Inductive settled (A : Type) : Type :=
| Fulfilled (a : A)
| Rejected (e : error).
Arguments Fulfilled {A} a.
Arguments Rejected {A} e.

(** A callback that throws inside [.then] rejects the derived promise. *)
Definition settle {A} (c : completion A) : settled A :=
  match c with
  | Normal a => Fulfilled a
  | Throw e => Rejected e
  end.

Definition cbind {A B} (c : completion A) (f : A → completion B) : completion B :=
  match c with
  | Normal a => f a
  | Throw e => Throw e
  end.

(** ** The language primitives the module relies on *)

Definition truthy (v : value) : bool :=
  match v with
  | JUndefined | JNull => false
  | JBool b => b
  | JNum n => negb (n =? 0)%Z
  | JStr s => negb (String.eqb s "")
  | JArr _ | JObj _ => true
  end.

(** [ToString]: an array joins its elements with commas ([null] and
    [undefined] print as nothing); an object prints as [[object Object]]
    unless an own [toString] entry, which parsed data cannot make callable,
    hides the inherited method. *)
Fixpoint ToString (v : value) : completion string :=
  match v with
  | JUndefined => Normal "undefined"
  | JNull => Normal "null"
  | JBool true => Normal "true"
  | JBool false => Normal "false"
  | JNum n => Normal (pretty n)
  | JStr s => Normal s
  | JArr items =>
      cbind
        ((fix each (xs : list value) : completion (list string) :=
            match xs with
            | [] => Normal []
            | x :: xs =>
                cbind (match x with
                       | JUndefined | JNull => Normal ""
                       | _ => ToString x
                       end)
                      (λ s, cbind (each xs) (λ ss, Normal (s :: ss)))
            end) items)
        (λ ss, Normal (String.concat "," ss))
  | JObj fields =>
      if bool_decide ("toString" ∈ keys fields) then Throw TypeError
      else Normal "[object Object]"
  end.

(** [o.hasOwnProperty(k)]: the method is inherited, so an own entry of that
    name hides it and the call throws. *)
Definition hasOwnProperty (o : value) (k : string) : completion bool :=
  match o with
  | JUndefined | JNull => Throw TypeError
  | JBool _ | JNum _ => Normal false
  | JStr s => Normal (bool_decide (k = "length" ∨ k ∈ index_keys (String.length s)))
  | JArr items => Normal (bool_decide (k = "length" ∨ k ∈ index_keys (length items)))
  | JObj fields =>
      if bool_decide ("hasOwnProperty" ∈ keys fields) then Throw TypeError
      else Normal (bool_decide (k ∈ keys fields))
  end.

(** [Object.keys(v)], which turns a primitive into an object first. The
    keys of an object come in insertion order, as they do when none of them
    is an integer; the properties below rely on their number only. *)
Definition Object_keys (v : value) : completion (list string) :=
  match v with
  | JUndefined | JNull => Throw TypeError
  | JBool _ | JNum _ => Normal []
  | JStr s => Normal (index_keys (String.length s))
  | JArr items => Normal (index_keys (length items))
  | JObj fields => Normal (keys fields)
  end.

(** [v.constructor === Object]: only a plain object inherits [Object] as its
    constructor, and an own [constructor] entry hides it. *)
Definition constructor_is_Object (v : value) : bool :=
  match v with
  | JObj fields => negb (bool_decide ("constructor" ∈ keys fields))
  | _ => false
  end.

(** The property read [v.k], for the names the module reads ([data], [next],
    [length], [username], [enabled_plugins], [fields], [version]), none of
    which an object inherits. *)
Definition Get (v : value) (k : string) : completion value :=
  match v with
  | JUndefined | JNull => Throw TypeError
  | JBool _ | JNum _ => Normal JUndefined
  | JStr s => Normal (if decide (k = "length") then JNum (Z.of_nat (String.length s)) else JUndefined)
  | JArr items => Normal (if decide (k = "length") then JNum (Z.of_nat (length items)) else JUndefined)
  | JObj fields => Normal (default JUndefined (lookup_field k fields))
  end.

(** [v.concat(more)]: arrays append, spreading an array argument; strings
    append the argument's text; nothing else has a [concat] to call. *)
Definition concat (v more : value) : completion value :=
  match v with
  | JArr items =>
      Normal (JArr (items ++ match more with JArr rest => rest | _ => [more] end))
  | JStr s => cbind (ToString more) (λ t, Normal (JStr (s +:+ t)))
  | _ => Throw TypeError
  end.

(** [all.filter(keep)] on an array; [keep] may throw. *)
Fixpoint filter_items (keep : value → completion bool) (items : list value)
  : completion (list value) :=
  match items with
  | [] => Normal []
  | c :: rest =>
      cbind (keep c) (λ b,
      cbind (filter_items keep rest) (λ kept,
      Normal (if b then c :: kept else kept)))
  end.

(** The names every plain object inherits from [Object.prototype]; a read of
    any of them on an object without such an own entry is truthy. *)
Definition Object_prototype_names : list string :=
  [ "constructor"; "__defineGetter__"; "__defineSetter__"; "hasOwnProperty";
    "__lookupGetter__"; "__lookupSetter__"; "isPrototypeOf";
    "propertyIsEnumerable"; "toString"; "valueOf"; "__proto__";
    "toLocaleString" ].

(** ** Requests *)

Record endpoint : Type := {
  name : string;
  params : list (string * value);
}.

(** The second argument of [requestEndpoint]. *)
Record request_params : Type := {
  method : value;
  body : value;
}.

Record options : Type := {
  opt_method : value;
  opt_headers : list (string * string);
  opt_body : option string;
}.

Inductive request : Type :=
| GET (uri : value)
| REQUEST (uri : string) (opts : options).

(** ** The collaborators *)

(** [requester], [createRouter] and [parseVersion] are imported; [World] is
    whatever the gateway behind the transport keeps between requests.
    [StringToNumber_lt s n] stands for [ToNumber(s) < n] and
    [JSON_stringify] for [JSON.stringify]. *)
Class Collaborators : Type := {
  World : Type;
  requester_get : value → World → settled Response * World;
  requester_request : string → options → World → settled Response * World;
  createRouter : string → bool → endpoint → string;
  version : Type;
  version_truthy : version → bool;
  parseVersion : value → completion version;
  StringToNumber_lt : string → Z → bool;
  JSON_stringify : value → string;
}.

(** [v < n] for a number [n]. *)
Definition less_than `{Collaborators} (v : value) (n : Z) : completion bool :=
  match v with
  | JUndefined => Normal false
  | JNull => Normal (0 <? n)%Z
  | JBool b => Normal ((if b then 1 else 0) <? n)%Z
  | JNum m => Normal (m <? n)%Z
  | JStr s => Normal (StringToNumber_lt s n)
  | JArr _ | JObj _ => cbind (ToString v) (λ s, Normal (StringToNumber_lt s n))
  end.

(** ** The module state *)

(** A [Map] built by [new Map(all)], kept as the entries it was built from
    (a [Map] would keep the last entry of a repeated key only; the
    properties below look at the cache as a whole, never into it). *)
Definition Map : Type := list (value * value).

(** The three [let] bindings at the top of the module, the gateway, and the
    requests issued so far. *)
Record state `{Collaborators} : Type := {
  pluginSchemasCache : option Map;
  kongVersionCache : option version;
  resultsCache : gmap string (settled value);
  world : World;
  calls : list request;
}.

Definition initial `{Collaborators} (w : World) : state :=
  {| pluginSchemasCache := None; kongVersionCache := None; resultsCache := ∅;
     world := w; calls := [] |}.

(** The test [if (kongVersionCache)]. *)
Definition cached_version `{Collaborators} (c : option version) : option version :=
  match c with
  | Some v => if version_truthy v then Some v else None
  | None => None
  end.

(** A computation of the module: it may change the state, and yields nothing
    when its bound on requests runs out. *)
Definition M `{Collaborators} (A : Type) : Type := state → option (A * state).

Definition ret `{Collaborators} {A} (a : A) : M A := λ s, Some (a, s).

Definition bind `{Collaborators} {A B} (m : M A) (f : A → M B) : M B :=
  λ s, match m s with
       | None => None
       | Some (a, s') => f a s'
       end.

Notation "'let*' x := m 'in' k" := (bind m (λ x, k))
  (at level 10, x name, m at level 100, k at level 200, only parsing).

(** The state once a request has gone out and the gateway has moved on. *)
Definition sent `{Collaborators} (s : state) (w : World) (c : request) : state :=
  {| pluginSchemasCache := pluginSchemasCache s;
     kongVersionCache := kongVersionCache s;
     resultsCache := resultsCache s;
     world := w;
     calls := calls s ++ [c] |}.

(** [requester.get(uri)]. *)
Definition get `{Collaborators} (uri : value) : M (settled Response) :=
  λ s, let '(r, w) := requester_get uri (world s) in
       Some (r, sent s w (GET uri)).

(** [requester.request(uri, opts)]. *)
Definition request_ `{Collaborators} (uri : string) (opts : options) : M (settled Response) :=
  λ s, let '(r, w) := requester_request uri opts (world s) in
       Some (r, sent s w (REQUEST uri opts)).

Definition set_resultsCache `{Collaborators} (c : gmap string (settled value)) : M unit :=
  λ s, Some (tt, {| pluginSchemasCache := pluginSchemasCache s;
                    kongVersionCache := kongVersionCache s;
                    resultsCache := c;
                    world := world s;
                    calls := calls s |}).

(** [resultsCache[uri] = result]. *)
Definition store_result `{Collaborators} (uri : string) (result : settled value) : M unit :=
  λ s, Some (tt, {| pluginSchemasCache := pluginSchemasCache s;
                    kongVersionCache := kongVersionCache s;
                    resultsCache := <[uri := result]> (resultsCache s);
                    world := world s;
                    calls := calls s |}).

Definition set_pluginSchemasCache `{Collaborators} (m : Map) : M unit :=
  λ s, Some (tt, {| pluginSchemasCache := Some m;
                    kongVersionCache := kongVersionCache s;
                    resultsCache := resultsCache s;
                    world := world s;
                    calls := calls s |}).

Definition set_kongVersionCache `{Collaborators} (v : version) : M unit :=
  λ s, Some (tt, {| pluginSchemasCache := pluginSchemasCache s;
                    kongVersionCache := Some v;
                    resultsCache := resultsCache s;
                    world := world s;
                    calls := calls s |}).

(** ** getPaginatedJson *)

(** The last [.then] of [getPaginatedJson], up to the decision to follow
    [next]: either the promise settles, or the page [data] is kept and
    [next] is fetched. *)
Inductive page : Type :=
| Settle (r : settled value)
| More (data next : value).

Definition read_page `{Collaborators} (json : value) : completion page :=
  cbind (hasOwnProperty json "data") (λ has_data,
  if negb has_data then Normal (Settle (Fulfilled json)) else
  cbind (hasOwnProperty json "next") (λ has_next,
  if negb has_next then
    cbind (Get json "data") (λ data,
    cbind (Object_keys data) (λ ks,
    if (length ks =? 0)%nat && constructor_is_Object data
    then Normal (Settle (Fulfilled (JArr [])))
    else Normal (Settle (Fulfilled data))))
  else
    cbind (Get json "data") (λ data,
    cbind (Get data "length") (λ len,
    cbind (less_than len 100) (λ short,
    if short then Normal (Settle (Fulfilled data)) else
    cbind (Get json "next") (λ next,
    Normal (More data next))))))).

Fixpoint getPaginatedJson `{Collaborators} (fuel : nat) (uri : value) : M (settled value) :=
  match fuel with
  | O => λ _, None
  | S fuel =>
      let* got := get uri in
      match got with
      | Rejected e => ret (Rejected e)
      | Fulfilled response =>
          if negb (ok response) then
            ret (settle (cbind (ToString uri) (λ u,
                 Throw (HttpError (u +:+ ": " +:+ pretty (status response) +:+ " "
                                     +:+ statusText response) response))))
          else
            match json response with
            | None => ret (Rejected SyntaxError)
            | Some json =>
                match read_page json with
                | Throw e => ret (Rejected e)
                | Normal (Settle r) => ret r
                | Normal (More data next) =>
                    let* rest := getPaginatedJson fuel next in
                    match rest with
                    | Rejected e => ret (Rejected e)
                    | Fulfilled more => ret (settle (concat data more))
                    end
                end
            end
      end
  end.

(** ** getPaginatedJsonCache *)

(** [resultsCache] is an object used as a map from request URI to promise.
    Its keys are the URLs the router builds, none of which is the name of
    an inherited member, so the own-property test and the assignment are
    lookup and insertion in the map. *)
Definition getPaginatedJsonCache `{Collaborators} (fuel : nat) (uri : string)
  : M (settled value) :=
  λ s, match resultsCache s !! uri with
       | Some result => Some (result, s)
       | None =>
           (let* result := getPaginatedJson fuel (JStr uri) in
            let* _ := store_result uri result in
            ret result) s
       end.

(** ** The facade *)

(** The options of the default export. [consumers] is [None] when the
    option is left out. *)
Record config : Type := {
  host : string;
  https : bool;
  ignoreConsumers : bool;
  ignoreUndeclaredConsumers : bool;
  consumers : option (list value);
  cache : bool;
  concurrency : option nat;
}.

(** The aggregator a facade is built with: the plain one or the caching one. *)
Definition fetcher `{Collaborators} : Type := nat → string → M (settled value).

Definition getEnabledPluginNames (enabledPlugins : value) : completion (list value) :=
  match enabledPlugins with
  | JArr names => Normal names
  | _ => cbind (Object_keys enabledPlugins) (λ ks, Normal (JStr <$> ks))
  end.

Definition getPluginScheme `{Collaborators} (fuel : nat) (plugin : value)
    (schemaRoute : value → string) : M (settled (value * value)) :=
  let* r := getPaginatedJson fuel (JStr (schemaRoute plugin)) in
  match r with
  | Rejected e => ret (Rejected e)
  | Fulfilled scheme =>
      ret (settle (cbind (Get scheme "fields") (λ fields, Normal (plugin, fields))))
  end.

(** A stand-in for Bluebird's [Promise.map]: the tasks run one at a time in
    list order, and the first rejection rejects the whole. The order in
    which Bluebird starts the tasks under its [concurrency] option, and what
    it makes of that option, are the library's and are not modelled; the
    properties below hold whatever they are. *)
Fixpoint Promise_map `{Collaborators} {A} (xs : list value) (f : value → M (settled A))
  : M (settled (list A)) :=
  match xs with
  | [] => ret (Fulfilled [])
  | x :: xs =>
      let* r := f x in
      match r with
      | Rejected e => ret (Rejected e)
      | Fulfilled a =>
          let* rs := Promise_map xs f in
          match rs with
          | Rejected e => ret (Rejected e)
          | Fulfilled others => ret (Fulfilled (a :: others))
          end
      end
  end.

Definition prepareOptions `{Collaborators} (p : request_params) : options :=
  if truthy (body p) then
    {| opt_method := method p;
       opt_headers := [("Accept", "application/json");
                       ("Content-Type", "application/json")];
       opt_body := Some (JSON_stringify (body p)) |}
  else
    {| opt_method := method p;
       opt_headers := [("Accept", "application/json")];
       opt_body := None |}.

(** The object [declaredConsumers], by its own keys (each holds [true]).
    The assignment [declaredConsumers[k] = true] adds the key, except for
    [__proto__], whose inherited setter ignores a boolean. *)
Definition declare_key (k : string) (own : gset string) : gset string :=
  if decide (k = "__proto__") then own else {[k]} ∪ own.

(** [consumers.map(c => declaredConsumers[c.username] = true)], starting from
    [{anonymous: true}]. *)
Fixpoint declare (declared : list value) (own : gset string) : completion (gset string) :=
  match declared with
  | [] => Normal own
  | c :: rest =>
      cbind (Get c "username") (λ username,
      cbind (ToString username) (λ k,
      declare rest (declare_key k own)))
  end.

(** The read [declaredConsumers[k]], as the filter tests it: an own key
    holds [true], and a name found on [Object.prototype] yields the
    inherited member, which is truthy as well. *)
Definition declared_read (own : gset string) (k : string) : bool :=
  bool_decide (k ∈ own) || bool_decide (k ∈ Object_prototype_names).

(** The callback [c => declaredConsumers[c.username]]. *)
Definition is_declared (own : gset string) (c : value) : completion bool :=
  cbind (Get c "username") (λ username,
  cbind (ToString username) (λ k,
  Normal (declared_read own k))).

(** The body of the [.then] of [fetchConsumers]. *)
Definition filter_consumers (cfg : config) (all : value) : completion value :=
  match ignoreUndeclaredConsumers cfg, consumers cfg with
  | true, Some declared =>
      cbind (declare declared {["anonymous"]}) (λ declaredConsumers,
      match all with
      | JArr items =>
          cbind (filter_items (is_declared declaredConsumers) items) (λ kept,
          Normal (JArr kept))
      | _ => Throw TypeError
      end)
  | _, _ => Normal all
  end.

(** The object returned by [createApi]. Every operation takes the bound on
    GET requests that its aggregator calls may use. *)
Record Api `{Collaborators} : Type := {
  router : endpoint → string;
  fetchApis : nat → M (settled value);
  fetchGlobalPlugins : nat → M (settled value);
  fetchPlugins : value → nat → M (settled value);
  fetchConsumerCredentials : value → value → nat → M (settled value);
  fetchConsumerAcls : value → nat → M (settled value);
  fetchUpstreams : nat → M (settled value);
  fetchTargets : value → nat → M (settled value);
  fetchTargetsV11Active : value → nat → M (settled value);
  fetchCertificates : nat → M (settled value);
  fetchConsumers : nat → M (settled value);
  fetchPluginSchemas : nat → M (settled Map);
  fetchKongVersion : nat → M (settled version);
  requestEndpoint : endpoint → request_params → M (settled Response);
  api_concurrency : option nat;
}.

Definition route (n : string) (ps : list (string * value)) : endpoint :=
  {| name := n; params := ps |}.

Definition createApi `{Collaborators} (router : endpoint → string)
    (getPaginatedJson : fetcher) (cfg : config) : Api :=
  {| router := router;
     fetchApis := λ fuel, getPaginatedJson fuel (router (route "apis" []));
     fetchGlobalPlugins := λ fuel, getPaginatedJson fuel (router (route "plugins" []));
     fetchPlugins := λ apiId fuel,
       getPaginatedJson fuel (router (route "api-plugins" [("apiId", apiId)]));
     fetchConsumerCredentials := λ consumerId plugin fuel,
       getPaginatedJson fuel
         (router (route "consumer-credentials"
                    [("consumerId", consumerId); ("plugin", plugin)]));
     fetchConsumerAcls := λ consumerId fuel,
       getPaginatedJson fuel (router (route "consumer-acls" [("consumerId", consumerId)]));
     fetchUpstreams := λ fuel, getPaginatedJson fuel (router (route "upstreams" []));
     fetchTargets := λ upstreamId fuel,
       getPaginatedJson fuel (router (route "upstream-targets" [("upstreamId", upstreamId)]));
     fetchTargetsV11Active := λ upstreamId fuel,
       getPaginatedJson fuel
         (router (route "upstream-targets-active" [("upstreamId", upstreamId)]));
     fetchCertificates := λ fuel, getPaginatedJson fuel (router (route "certificates" []));

     fetchConsumers := λ fuel,
       if ignoreConsumers cfg then ret (Fulfilled (JArr []))
       else
         let* r := getPaginatedJson fuel (router (route "consumers" [])) in
         match r with
         | Rejected e => ret (Rejected e)
         | Fulfilled all => ret (settle (filter_consumers cfg all))
         end;

     fetchPluginSchemas := λ fuel s,
       match pluginSchemasCache s with
       | Some schemas => Some (Fulfilled schemas, s)
       | None =>
           (let* r := getPaginatedJson fuel (router (route "plugins-enabled" [])) in
            match r with
            | Rejected e => ret (Rejected e)
            | Fulfilled json =>
                match cbind (Get json "enabled_plugins") getEnabledPluginNames with
                | Throw e => ret (Rejected e)
                | Normal names =>
                    let* r := Promise_map names (λ plugin,
                                getPluginScheme fuel plugin (λ plugin,
                                  router (route "plugins-scheme" [("plugin", plugin)]))) in
                    match r with
                    | Rejected e => ret (Rejected e)
                    | Fulfilled all =>
                        let* _ := set_pluginSchemasCache all in
                        ret (Fulfilled all)
                    end
                end
            end) s
       end;

     fetchKongVersion := λ fuel s,
       match cached_version (kongVersionCache s) with
       | Some v => Some (Fulfilled v, s)
       | None =>
           (let* r := getPaginatedJson fuel (router (route "root" [])) in
            match r with
            | Rejected e => ret (Rejected e)
            | Fulfilled json =>
                match cbind (Get json "version") parseVersion with
                | Throw e => ret (Rejected e)
                | Normal v =>
                    let* _ := set_kongVersionCache v in
                    ret (Fulfilled v)
                end
            end) s
       end;

     requestEndpoint := λ endpoint params,
       let* _ := set_resultsCache ∅ in
       request_ (router endpoint) (prepareOptions params);

     api_concurrency := concurrency cfg |}.

(** [cache ? getPaginatedJsonCache : getPaginatedJson]. *)
Definition fetcher_of `{Collaborators} (cfg : config) : fetcher :=
  if cache cfg then getPaginatedJsonCache
  else λ fuel uri, getPaginatedJson fuel (JStr uri).

(** The default export. *)
Definition adminApi `{Collaborators} (cfg : config) : Api :=
  createApi (createRouter (host cfg) (https cfg)) (fetcher_of cfg) cfg.

(** ** Chains of pages *)

(** [page_at s uri body s1]: in state [s] the GET of [uri] is answered with
    a successful response whose parsed body is [body], leaving [s1]. *)
Definition page_at `{Collaborators} (s : state) (uri : value) (body : value) (s1 : state)
  : Prop :=
  ∃ response, get uri s = Some (Fulfilled response, s1)
              ∧ ok response = true ∧ json response = Some body.

(** What [v.concat(more)] appends to an array. *)
Definition spread (more : value) : list value :=
  match more with
  | JArr rest => rest
  | _ => [more]
  end.

(** [serves s uri pages last s2]: from [uri] on, the gateway hands out the
    full pages [pages], each with a [next] link to the following one, and
    then a page [last] that is short or carries no [next]. *)
Inductive serves `{Collaborators} : state → value → list (list value) → list value → state → Prop :=
| serves_short s uri body items s1 :
    page_at s uri body s1 →
    hasOwnProperty body "data" = Normal true →
    hasOwnProperty body "next" = Normal true →
    Get body "data" = Normal (JArr items) →
    (length items < 100)%nat →
    serves s uri [] items s1
| serves_end s uri body items s1 :
    page_at s uri body s1 →
    hasOwnProperty body "data" = Normal true →
    hasOwnProperty body "next" = Normal false →
    Get body "data" = Normal (JArr items) →
    serves s uri [] items s1
| serves_full s uri body items next s1 pages last s2 :
    page_at s uri body s1 →
    hasOwnProperty body "data" = Normal true →
    hasOwnProperty body "next" = Normal true →
    Get body "data" = Normal (JArr items) →
    Get body "next" = Normal next →
    (100 ≤ length items)%nat →
    serves s1 next pages last s2 →
    serves s uri (items :: pages) last s2.

(** ** Operations of a process *)

(** What a process can do to the module state: call an operation of some
    facade (the result is dropped here), or see the gateway change by
    itself. *)
Inductive op `{Collaborators} : Type :=
| FetchApis
| FetchGlobalPlugins
| FetchPlugins (apiId : value)
| FetchConsumerCredentials (consumerId plugin : value)
| FetchConsumerAcls (consumerId : value)
| FetchUpstreams
| FetchTargets (upstreamId : value)
| FetchTargetsV11Active (upstreamId : value)
| FetchCertificates
| FetchConsumers
| FetchPluginSchemas
| FetchKongVersion
| RequestEndpoint (e : endpoint) (p : request_params)
| GatewayChange (w : World).

Definition drop `{Collaborators} {A} (m : M A) : M unit :=
  let* _ := m in ret tt.

Definition run_op `{Collaborators} (api : Api) (fuel : nat) (o : op) : M unit :=
  match o with
  | FetchApis => drop (fetchApis api fuel)
  | FetchGlobalPlugins => drop (fetchGlobalPlugins api fuel)
  | FetchPlugins apiId => drop (fetchPlugins api apiId fuel)
  | FetchConsumerCredentials c p => drop (fetchConsumerCredentials api c p fuel)
  | FetchConsumerAcls c => drop (fetchConsumerAcls api c fuel)
  | FetchUpstreams => drop (fetchUpstreams api fuel)
  | FetchTargets u => drop (fetchTargets api u fuel)
  | FetchTargetsV11Active u => drop (fetchTargetsV11Active api u fuel)
  | FetchCertificates => drop (fetchCertificates api fuel)
  | FetchConsumers => drop (fetchConsumers api fuel)
  | FetchPluginSchemas => drop (fetchPluginSchemas api fuel)
  | FetchKongVersion => drop (fetchKongVersion api fuel)
  | RequestEndpoint e p => drop (requestEndpoint api e p)
  | GatewayChange w =>
      λ s, Some (tt, {| pluginSchemasCache := pluginSchemasCache s;
                        kongVersionCache := kongVersionCache s;
                        resultsCache := resultsCache s;
                        world := w;
                        calls := calls s |})
  end.

Definition is_RequestEndpoint `{Collaborators} (o : op) : bool :=
  match o with
  | RequestEndpoint _ _ => true
  | _ => false
  end.

(** A run of a process: each step names the facade (by its options) it goes
    through. *)
Inductive run `{Collaborators} : state → list (config * nat * op) → state → Prop :=
| run_nil s : run s [] s
| run_cons s cfg fuel o s1 rest s2 :
    run_op (adminApi cfg) fuel o s = Some (tt, s1) →
    run s1 rest s2 →
    run s ((cfg, fuel, o) :: rest) s2.

(** ** What a step leaves in place *)

(** Once set, the plugin schemas stay. *)
Definition keeps_schemas `{Collaborators} (s s' : state) : Prop :=
  ∀ schemas, pluginSchemasCache s = Some schemas → pluginSchemasCache s' = Some schemas.

(** Besides, every entry of the results cache stays. *)
Definition keeps_results `{Collaborators} (s s' : state) : Prop :=
  keeps_schemas s s'
  ∧ ∀ uri result, resultsCache s !! uri = Some result → resultsCache s' !! uri = Some result.

Definition preserves `{Collaborators} {A} (R : state → state → Prop) (m : M A) : Prop :=
  ∀ s a s', m s = Some (a, s') → R s s'.

(** ** The claims as the specification words them, where they are compared
    with the code *)

(** The consumers a declared-only filter keeps: those whose username is in
    the declared list, or is [anonymous]. A username is compared as the
    property key it is used as. *)
Definition username_key (c : value) : option string :=
  match cbind (Get c "username") ToString with
  | Normal k => Some k
  | Throw _ => None
  end.

Definition declared_only (declared : list value) (fetched : list value) : list value :=
  List.filter
    (λ c, match username_key c with
          | Some k => bool_decide (k = "anonymous" ∨ Some k ∈ username_key <$> declared)
          | None => false
          end)
    fetched.


(** ** A gateway to run the module against *)

Module Demo.

Definition page_of (n : nat) (item : value) : list value := replicate n item.

Definition consumer (username : string) : value :=
  JObj [("username", JStr username); ("id", JStr ("id-" +:+ username))].

Definition success (body : value) : Response :=
  {| ok := true; status := 200; statusText := "OK"; json := Some body |}.

Definition not_found : Response :=
  {| ok := false; status := 404; statusText := "Not Found"; json := None |}.

Definition base : string := "http://kong:8001".

(** The gateway state is the number of requests made through
    [requester.request] so far; a plugin is enabled by the first of them. *)
Definition serve (uri : string) (w : nat) : Response :=
  if decide (uri = base +:+ "/apis") then
    success (JObj [("data", JArr (page_of 100 (JStr "api")));
                   ("next", JStr (base +:+ "/apis?offset=100"))])
  else if decide (uri = base +:+ "/apis?offset=100") then
    success (JObj [("data", JArr [JStr "api-100"; JStr "api-101"]);
                   ("next", JStr (base +:+ "/apis?offset=102"))])
  else if decide (uri = base +:+ "/consumers") then
    success (JObj [("data", JArr [consumer "alice"; consumer "constructor";
                                  consumer "bob"; consumer "anonymous"])])
  else if decide (uri = base +:+ "/plugins") then
    success (JObj [("total", JNum 0); ("data", JNull)])
  else if decide (uri = base +:+ "/upstreams") then
    success (JObj [("data", JObj []); ("next", JStr (base +:+ "/certificates"))])
  else if decide (uri = base +:+ "/upstreams/u1/targets") then
    success (JObj [("data", JObj [("length", JNum 5)]);
                   ("next", JStr (base +:+ "/certificates"))])
  else if decide (uri = base +:+ "/upstreams/u2/targets") then
    success (JObj [("data", JObj [("weight", JNum 5)]);
                   ("next", JStr (base +:+ "/apis?offset=100"))])
  else if decide (uri = base +:+ "/consumers/alice/acls") then
    success (JObj [("data", JObj [])])
  else if decide (uri = base +:+ "/plugins/enabled") then
    success (JObj [("enabled_plugins",
                    if decide (w = 0) then JArr [JStr "acl"]
                    else JArr [JStr "acl"; JStr "jwt"])])
  else if decide (uri = base +:+ "/plugins/schema/acl") then
    success (JObj [("fields", JObj [("whitelist", JStr "array")])])
  else if decide (uri = base +:+ "/plugins/schema/jwt") then
    success (JObj [("fields", JObj [("key_claim_name", JStr "string")])])
  else if decide (uri = base +:+ "/") then
    success (JObj [("version", JStr "0.11.0")])
  else not_found.

Definition path (e : endpoint) : string :=
  let param k := match cbind (Get (JObj (params e)) k) ToString with
                 | Normal s => s
                 | Throw _ => ""
                 end in
  if decide (name e = "root") then "/"
  else if decide (name e = "plugins-enabled") then "/plugins/enabled"
  else if decide (name e = "plugins-scheme") then "/plugins/schema/" +:+ param "plugin"
  else if decide (name e = "consumer-acls") then "/consumers/" +:+ param "consumerId" +:+ "/acls"
  else if decide (name e = "upstream-targets") then "/upstreams/" +:+ param "upstreamId" +:+ "/targets"
  else "/" +:+ name e.

(** Decimal literals only; any other text counts as not a number. *)
Fixpoint digits (s : string) (acc : Z) : option Z :=
  match s with
  | EmptyString => Some acc
  | String c rest =>
      let d := (Z.of_N (Ascii.N_of_ascii c) - 48)%Z in
      if ((0 <=? d) && (d <=? 9))%Z then digits rest (10 * acc + d)%Z else None
  end.

#[export] Instance gateway : Collaborators := {|
  World := nat;
  requester_get := λ uri w,
    match uri with
    | JStr u => (Fulfilled (serve u w), w)
    | _ => (Rejected (TransportError "only absolute URLs are supported"), w)
    end;
  requester_request := λ uri opts w,
    (Fulfilled {| ok := true; status := 200; statusText := "OK"; json := None |}, S w);
  createRouter := λ host https e,
    (if https then "https://" else "http://") +:+ host +:+ path e;
  version := string;
  version_truthy := λ v, negb (String.eqb v "");
  parseVersion := λ v, match v with JStr s => Normal s | _ => Throw TypeError end;
  StringToNumber_lt := λ s n,
    match digits s 0 with Some m => (m <? n)%Z | None => false end;
  JSON_stringify := λ v, match ToString v with Normal s => s | Throw _ => "" end;
|}.

Definition options_of (declared : option (list value)) (cached : bool) : config :=
  {| host := "kong:8001"; https := false;
     ignoreConsumers := false; ignoreUndeclaredConsumers := true;
     consumers := declared; cache := cached; concurrency := Some 1 |}.

Definition without_consumers : config :=
  {| host := "kong:8001"; https := false;
     ignoreConsumers := true; ignoreUndeclaredConsumers := false;
     consumers := None; cache := false; concurrency := None |}.

(** What a computation answers, and the state it leaves (the state it
    started in when the bound on requests was too small). *)
Definition answer {A} (m : M A) (s : state) : option A := fst <$> m s.

Definition after {A} (m : M A) (s : state) : state :=
  match m s with
  | Some (_, s') => s'
  | None => s
  end.

(** A process that has done nothing yet, before any plugin was enabled. *)
Definition start : state := @initial gateway 0.

(** The same, started after the first [requester.request]. *)
Definition start_later : state := @initial gateway 1.

(** The state after a GET of [uri], which leaves this gateway as it is. *)
Definition got (uri : string) (s : state) : state := sent s (world s) (GET (JStr uri)).

Definition apis : string := base +:+ "/apis".
Definition apis_next : string := base +:+ "/apis?offset=100".
Definition first_page : list value := page_of 100 (JStr "api").
Definition second_page : list value := [JStr "api-100"; JStr "api-101"].
Definition apis_body : value :=
  JObj [("data", JArr first_page); ("next", JStr apis_next)].
Definition apis_next_body : value :=
  JObj [("data", JArr second_page); ("next", JStr (base +:+ "/apis?offset=102"))].

Definition certificates : string := base +:+ "/certificates".
Definition acls : string := base +:+ "/consumers/alice/acls".
Definition plugins : string := base +:+ "/plugins".
Definition upstreams : string := base +:+ "/upstreams".
Definition targets_u1 : string := base +:+ "/upstreams/u1/targets".
Definition targets_u2 : string := base +:+ "/upstreams/u2/targets".

Definition post : request_params :=
  {| method := JStr "POST"; body := JObj [("name", JStr "jwt")] |}.

Definition acl_schemas : Map := [(JStr "acl", JObj [("whitelist", JStr "array")])].

End Demo.

(** ** Runs of the aggregator and footprints of the operations *)

Definition is_GET (c : request) : bool :=
  match c with
  | GET _ => true
  | REQUEST _ _ => false
  end.

(** [full_pages s uri pages next s1]: from [uri] on, the gateway hands out
    the full pages [pages], each linking to the following one; the last of
    them links to [next], which has not been requested yet in [s1]. *)
Inductive full_pages `{Collaborators} : state → value → list (list value) → value → state → Prop :=
| full_pages_nil s uri : full_pages s uri [] uri s
| full_pages_cons s uri body items link s1 pages next s2 :
    page_at s uri body s1 →
    hasOwnProperty body "data" = Normal true →
    hasOwnProperty body "next" = Normal true →
    Get body "data" = Normal (JArr items) →
    Get body "next" = Normal link →
    (100 ≤ length items)%nat →
    full_pages s1 link pages next s2 →
    full_pages s uri (items :: pages) next s2.

(** [endless P]: whatever its state, the gateway answers every URI of [P]
    with a full page whose [next] is in [P] again. *)
Definition endless `{Collaborators} (P : value → Prop) : Prop :=
  ∀ uri, P uri → ∀ s, ∃ body items next s1,
    page_at s uri body s1
    ∧ hasOwnProperty body "data" = Normal true
    ∧ hasOwnProperty body "next" = Normal true
    ∧ Get body "data" = Normal (JArr items)
    ∧ Get body "next" = Normal next
    ∧ (100 ≤ length items)%nat
    ∧ P next.

(** What a fetch may have done between [s] and [s']: send GET requests;
    set the plugin schemas, if there were none; set the version, if none
    was usable; and, for a caching facade only, add to the results cache. *)
Definition footprint `{Collaborators} (cached : bool) (s s' : state) : Prop :=
  (∃ more, calls s' = calls s ++ more ∧ Forall (λ c, is_GET c = true) more)
  ∧ (pluginSchemasCache s' = pluginSchemasCache s ∨ pluginSchemasCache s = None)
  ∧ (kongVersionCache s' = kongVersionCache s
     ∨ cached_version (kongVersionCache s) = None)
  ∧ (if cached
     then ∀ uri result, resultsCache s !! uri = Some result →
                        resultsCache s' !! uri = Some result
     else resultsCache s' = resultsCache s).

(** ** A gateway that misbehaves *)

Module Flaky.

Definition base : string := "http://kong:8001".

Definition looping_page : value :=
  JObj [("data", JArr (replicate 100 (JStr "api"))); ("next", JStr (base +:+ "/apis"))].

Definition upstreams_page : value :=
  JObj [("data", JArr (replicate 100 (JStr "upstream")));
        ("next", JStr (base +:+ "/upstreams?offset=100"))].

Definition enabled : value :=
  JObj [("enabled_plugins", JObj [("acl", JBool true); ("oauth2", JBool true)])].

Definition acl_scheme : value := JObj [("fields", JObj [("whitelist", JStr "array")])].

(** [/apis] links to itself for ever; the second page of [/upstreams] and
    the schema of [oauth2] are missing. *)
Definition serve (uri : string) : Response :=
  if decide (uri = base +:+ "/apis") then Demo.success looping_page
  else if decide (uri = base +:+ "/upstreams") then Demo.success upstreams_page
  else if decide (uri = base +:+ "/plugins/enabled") then Demo.success enabled
  else if decide (uri = base +:+ "/plugins/schema/acl") then Demo.success acl_scheme
  else Demo.not_found.

Definition gateway : Collaborators := {|
  World := unit;
  requester_get := λ uri w,
    match uri with
    | JStr u => (Fulfilled (serve u), w)
    | _ => (Rejected (TransportError "only absolute URLs are supported"), w)
    end;
  requester_request := λ uri opts w, (Fulfilled Demo.not_found, w);
  createRouter := λ host https e,
    (if https then "https://" else "http://") +:+ host +:+ Demo.path e;
  version := string;
  version_truthy := λ v, negb (String.eqb v "");
  parseVersion := λ v, match v with JStr s => Normal s | _ => Throw TypeError end;
  StringToNumber_lt := λ s n, false;
  JSON_stringify := λ v, match ToString v with Normal s => s | Throw _ => "" end;
|}.

Definition start : @state gateway := @initial gateway tt.

Definition got (uri : string) (s : @state gateway) : @state gateway :=
  @sent gateway s tt (GET (JStr uri)).

Definition options : config :=
  {| host := "kong:8001"; https := false;
     ignoreConsumers := false; ignoreUndeclaredConsumers := false;
     consumers := None; cache := false; concurrency := Some 2 |}.

End Flaky.

(** ** A gateway with envelopes that hold no list *)

Module Malformed.

Definition base : string := "http://kong:8001".

Definition numbers : string := base +:+ "/numbers".
Definition nothing : string := base +:+ "/nothing".
Definition more : string := base +:+ "/more".

Definition numbers_body : value := JObj [("data", JNum 7); ("next", JStr more)].
Definition nothing_body : value := JObj [("data", JNull); ("next", JStr more)].
Definition more_body : value := JObj [("data", JArr [JStr "item"])].

Definition serve (uri : string) : Response :=
  if decide (uri = numbers) then Demo.success numbers_body
  else if decide (uri = nothing) then Demo.success nothing_body
  else if decide (uri = more) then Demo.success more_body
  else Demo.not_found.

Definition gateway : Collaborators := {|
  World := unit;
  requester_get := λ uri w,
    match uri with
    | JStr u => (Fulfilled (serve u), w)
    | _ => (Rejected (TransportError "only absolute URLs are supported"), w)
    end;
  requester_request := λ uri opts w, (Fulfilled Demo.not_found, w);
  createRouter := λ host https e,
    (if https then "https://" else "http://") +:+ host +:+ Demo.path e;
  version := string;
  version_truthy := λ v, negb (String.eqb v "");
  parseVersion := λ v, match v with JStr s => Normal s | _ => Throw TypeError end;
  StringToNumber_lt := λ s n, false;
  JSON_stringify := λ v, match ToString v with Normal s => s | Throw _ => "" end;
|}.

Definition start : @state gateway := @initial gateway tt.

Definition got (uri : string) (s : @state gateway) : @state gateway :=
  @sent gateway s tt (GET (JStr uri)).

End Malformed.

(** * Properties *)

Section Aggregator.
Context `{Collaborators}.

(** ** One request *)

Lemma get_sent uri s r s1 :
  get uri s = Some (r, s1) →
  ∃ w, requester_get uri (world s) = (r, w) ∧ s1 = sent s w (GET uri).
Proof.
  unfold get. destruct (requester_get uri (world s)) as [r' w] eqn:E.
  intros [= <- <-]. by exists w.
Qed.

Lemma page_at_calls s uri body s1 :
  page_at s uri body s1 →
  calls s1 = calls s ++ [GET uri]
  ∧ pluginSchemasCache s1 = pluginSchemasCache s
  ∧ kongVersionCache s1 = kongVersionCache s
  ∧ resultsCache s1 = resultsCache s.
Proof.
  intros (response & Hget & _). apply get_sent in Hget as (w & _ & ->). done.
Qed.

(** ** One step of the aggregator *)

(** The aggregator on a successful response, by what [read_page] decides. *)
Lemma getPaginatedJson_page fuel s uri body s1 :
  page_at s uri body s1 →
  getPaginatedJson (S fuel) uri s =
    match read_page body with
    | Throw e => Some (Rejected e, s1)
    | Normal (Settle r) => Some (r, s1)
    | Normal (More data next) =>
        match getPaginatedJson fuel next s1 with
        | None => None
        | Some (Rejected e, s2) => Some (Rejected e, s2)
        | Some (Fulfilled more, s2) => Some (settle (concat data more), s2)
        end
    end.
Proof.
  intros (response & Hget & Hok & Hjson).
  simpl. unfold bind. rewrite Hget, Hok, Hjson. simpl.
  destruct (read_page body) as [[r | data next] | e]; try done.
  unfold ret. destruct (getPaginatedJson fuel next s1) as [[[more | e] s2] |]; done.
Qed.


(** The aggregator only talks to the gateway: the caches are left alone and
    the request log grows, starting with the GET of [uri]. *)
Lemma getPaginatedJson_frame fuel : ∀ uri s r s',
  getPaginatedJson fuel uri s = Some (r, s') →
  pluginSchemasCache s' = pluginSchemasCache s
  ∧ kongVersionCache s' = kongVersionCache s
  ∧ resultsCache s' = resultsCache s
  ∧ ∃ more, calls s' = calls s ++ GET uri :: more.
Proof.
  induction fuel as [| fuel IH]; intros uri s r s'; [done |].
  simpl. unfold bind.
  destruct (get uri s) as [[got s1] |] eqn:Hget; [| done].
  apply get_sent in Hget as (w & _ & ->).
  assert (Hone : ∀ r0 : settled value,
            ret r0 (sent s w (GET uri)) = Some (r, s') →
            pluginSchemasCache s' = pluginSchemasCache s
            ∧ kongVersionCache s' = kongVersionCache s
            ∧ resultsCache s' = resultsCache s
            ∧ ∃ more, calls s' = calls s ++ GET uri :: more).
  { intros r0 [= _ <-]. repeat split; eauto. }
  destruct got as [response | e]; [| by apply Hone].
  destruct (negb (ok response)); [by apply Hone |].
  destruct (json response) as [body |]; [| by apply Hone].
  destruct (read_page body) as [[r0 | data next] | e]; try by apply Hone.
  destruct (getPaginatedJson fuel next (sent s w (GET uri)))
    as [[rest s2] |] eqn:Hrec; [| done].
  apply IH in Hrec as (Hp & Hk & Hr & more & Hc).
  intros Hret.
  assert (s' = s2) as -> by (destruct rest; by injection Hret).
  repeat split; try done.
  exists (GET next :: more). rewrite Hc. simpl. by rewrite <- app_assoc.
Qed.

(** More fuel never changes an answer. *)
Lemma getPaginatedJson_mono fuel : ∀ fuel' uri s out,
  fuel ≤ fuel' →
  getPaginatedJson fuel uri s = Some out →
  getPaginatedJson fuel' uri s = Some out.
Proof.
  induction fuel as [| fuel IH]; intros fuel' uri s out Hle; [done |].
  destruct fuel' as [| fuel']; [lia |].
  simpl. unfold bind.
  destruct (get uri s) as [[got s1] |]; [| done].
  destruct got as [response | e]; [| done].
  destruct (negb (ok response)); [done |].
  destruct (json response) as [body |]; [| done].
  destruct (read_page body) as [[r0 | data next] | e]; try done.
  destruct (getPaginatedJson fuel next s1) as [out1 |] eqn:Hrec; [| done].
  by rewrite (IH fuel' next s1 out1) by (lia || done).
Qed.

(** ** What [read_page] decides *)

Lemma read_page_short body items :
  hasOwnProperty body "data" = Normal true →
  hasOwnProperty body "next" = Normal true →
  Get body "data" = Normal (JArr items) →
  (length items < 100)%nat →
  read_page body = Normal (Settle (Fulfilled (JArr items))).
Proof.
  intros Hdata Hnext Hget Hlen. unfold read_page.
  rewrite Hdata, Hnext, Hget. simpl.
  destruct (Z.ltb_spec (Z.of_nat (length items)) 100); [done | lia].
Qed.

Lemma read_page_full body items next :
  hasOwnProperty body "data" = Normal true →
  hasOwnProperty body "next" = Normal true →
  Get body "data" = Normal (JArr items) →
  Get body "next" = Normal next →
  (100 ≤ length items)%nat →
  read_page body = Normal (More (JArr items) next).
Proof.
  intros Hdata Hnext Hget Hlink Hlen. unfold read_page.
  rewrite Hdata, Hnext, Hget. simpl.
  destruct (Z.ltb_spec (Z.of_nat (length items)) 100); [lia |].
  by rewrite Hlink.
Qed.

(** Only the empty plain object is turned into the empty list. *)
Lemma empty_object_test data ks :
  Object_keys data = Normal ks →
  (length ks =? 0)%nat && constructor_is_Object data
  = match data with JObj [] => true | _ => false end.
Proof.
  destruct data as [| | b | n | str | items | fields]; simpl; try done;
    intros [= <-]; try by rewrite andb_false_r.
  destruct fields as [| [k v] rest]; done.
Qed.

Lemma read_page_end body data :
  hasOwnProperty body "data" = Normal true →
  hasOwnProperty body "next" = Normal false →
  Get body "data" = Normal data →
  data ≠ JNull → data ≠ JUndefined →
  read_page body
  = Normal (Settle (Fulfilled (match data with JObj [] => JArr [] | _ => data end))).
Proof.
  intros Hdata Hnext Hget Hnull Hundef. unfold read_page.
  rewrite Hdata, Hnext, Hget. simpl.
  destruct (Object_keys data) as [ks | e] eqn:Hks.
  - simpl. rewrite (empty_object_test _ _ Hks).
    destruct data as [| | b | n | str | items | [| [k v] rest]]; done.
  - destruct data; done.
Qed.

(** A chain of pages is aggregated with one GET per page, in page order. *)
Lemma serves_aggregates s uri pages last s2 :
  serves s uri pages last s2 →
  getPaginatedJson (S (length pages)) uri s
  = Some (Fulfilled (JArr (List.concat pages ++ last)), s2).
Proof.
  induction 1 as [s uri body items s1 Hpage Hd Hn Hg Hlen
                 | s uri body items s1 Hpage Hd Hn Hg
                 | s uri body items next s1 pages last s2 Hpage Hd Hn Hg Hl Hlen _ IH].
  - rewrite (getPaginatedJson_page _ _ _ _ _ Hpage).
    by rewrite (read_page_short _ _ Hd Hn Hg Hlen).
  - rewrite (getPaginatedJson_page _ _ _ _ _ Hpage).
    rewrite (read_page_end _ _ Hd Hn Hg) by done. done.
  - rewrite (getPaginatedJson_page _ _ _ _ _ Hpage).
    rewrite (read_page_full _ _ _ Hd Hn Hg Hl Hlen).
    simpl length. rewrite IH. simpl. by rewrite <- app_assoc.
Qed.

(** A chain of pages costs one GET per page. *)
Lemma serves_calls s uri pages last s2 :
  serves s uri pages last s2 →
  length (calls s2) = length (calls s) + S (length pages).
Proof.
  induction 1 as [s uri body items s1 Hpage _ _ _ _
                 | s uri body items s1 Hpage _ _ _
                 | s uri body items next s1 pages last s2 Hpage _ _ _ _ _ _ IH];
    apply page_at_calls in Hpage as [Hcalls _].
  - rewrite Hcalls, length_app. simpl. lia.
  - rewrite Hcalls, length_app. simpl. lia.
  - rewrite IH, Hcalls, length_app. simpl. lia.
Qed.

(** C1, amended. When the body has both [data] and [next], with [data] a list:
    a page of fewer than 100 items is returned as it is and [next] is not
    fetched (one GET in all); a page of 100 items or more makes the
    aggregator fetch [next] and answer [data.concat] of what that fetch
    yields, current page first; and when the pages that follow are full
    pages closed by a short page or by a page without [next], the recursion
    stops there, one GET per page, with all the pages appended in order. *)
Theorem getPaginatedJson_follows_next s uri body items next s1 :
  page_at s uri body s1 →
  hasOwnProperty body "data" = Normal true →
  hasOwnProperty body "next" = Normal true →
  Get body "data" = Normal (JArr items) →
  Get body "next" = Normal next →
  ((length items < 100)%nat →
     calls s1 = calls s ++ [GET uri]
     ∧ ∀ fuel, getPaginatedJson (S fuel) uri s = Some (Fulfilled (JArr items), s1))
  ∧ ((100 ≤ length items)%nat →
     (∀ fuel, getPaginatedJson (S fuel) uri s =
        match getPaginatedJson fuel next s1 with
        | None => None
        | Some (Rejected e, s2) => Some (Rejected e, s2)
        | Some (Fulfilled more, s2) => Some (Fulfilled (JArr (items ++ spread more)), s2)
        end)
     ∧ (∀ pages last s2, serves s1 next pages last s2 →
        getPaginatedJson (S (S (length pages))) uri s
        = Some (Fulfilled (JArr (items ++ List.concat pages ++ last)), s2)
        ∧ length (calls s2) = length (calls s) + S (S (length pages)))).
Proof.
  intros Hpage Hd Hn Hg Hl. split.
  - intros Hlen. split; [by apply page_at_calls in Hpage as [? _] |].
    intros fuel. rewrite (getPaginatedJson_page _ _ _ _ _ Hpage).
    by rewrite (read_page_short _ _ Hd Hn Hg Hlen).
  - intros Hlen. split.
    + intros fuel. rewrite (getPaginatedJson_page _ _ _ _ _ Hpage).
      by rewrite (read_page_full _ _ _ Hd Hn Hg Hl Hlen).
    + intros pages last s2 Hrest.
      assert (Hall : serves s uri (items :: pages) last s2) by by eapply serves_full.
      split.
      * rewrite app_assoc. by apply (serves_aggregates s uri (items :: pages) last s2).
      * by apply serves_calls in Hall.
Qed.

(** C2, amended. When the body has [data] but no [next], and [data] is not
    [null]: the aggregator answers the empty list when [data] is the empty
    plain object, and [data] itself otherwise; a list is answered as it
    is. *)
Theorem getPaginatedJson_without_next s uri body data s1 :
  page_at s uri body s1 →
  hasOwnProperty body "data" = Normal true →
  hasOwnProperty body "next" = Normal false →
  Get body "data" = Normal data →
  data ≠ JNull → data ≠ JUndefined →
  ∀ fuel,
    getPaginatedJson (S fuel) uri s
    = Some (Fulfilled (match data with JObj [] => JArr [] | _ => data end), s1)
    ∧ (∀ items, data = JArr items →
       getPaginatedJson (S fuel) uri s = Some (Fulfilled (JArr items), s1)).
Proof.
  intros Hpage Hd Hn Hg Hnull Hundef fuel.
  rewrite (getPaginatedJson_page _ _ _ _ _ Hpage).
  rewrite (read_page_end _ _ Hd Hn Hg) by done.
  split; [done |]. by intros items ->.
Qed.





(** C9, amended. When the body has [next] and a [data] that is a plain
    object, the aggregator never answers a list. If [data] has no own
    [length], the guard fails and [next] is fetched first: the fetch is
    rejected with a type error once that inner fetch is fulfilled, and with
    the inner error when the inner fetch is rejected. *)
Theorem getPaginatedJson_object_data_with_next s uri body fields next s1 :
  page_at s uri body s1 →
  hasOwnProperty body "data" = Normal true →
  hasOwnProperty body "next" = Normal true →
  Get body "data" = Normal (JObj fields) →
  Get body "next" = Normal next →
  (∀ fuel r s', getPaginatedJson fuel uri s = Some (r, s') →
     ∀ items, r ≠ Fulfilled (JArr items))
  ∧ (lookup_field "length" fields = None →
     ∀ fuel, getPaginatedJson (S fuel) uri s =
       match getPaginatedJson fuel next s1 with
       | None => None
       | Some (Fulfilled _, s2) => Some (Rejected TypeError, s2)
       | Some (Rejected e, s2) => Some (Rejected e, s2)
       end).
Proof.
  intros Hpage Hd Hn Hg Hl. split.
  - intros [| fuel] r s'; [done |].
    rewrite (getPaginatedJson_page _ _ _ _ _ Hpage).
    unfold read_page. rewrite Hd, Hn, Hg. simpl.
    destruct (less_than (default JUndefined (lookup_field "length" fields)) 100)
      as [[|] | e]; simpl.
    + by intros [= <- _] items.
    + rewrite Hl. simpl.
      destruct (getPaginatedJson fuel next s1) as [[[more | e] s2] |];
        [| | done]; by intros [= <- _] items.
    + by intros [= <- _] items.
  - intros Hnone fuel.
    rewrite (getPaginatedJson_page _ _ _ _ _ Hpage).
    unfold read_page. rewrite Hd, Hn, Hg. simpl. rewrite Hnone, Hl. simpl.
    by destruct (getPaginatedJson fuel next s1) as [[[more | e] s2] |].
Qed.

End Aggregator.

Section Facade.
Context `{Collaborators}.

(** ** What the operations leave in place *)

Lemma keeps_schemas_refl s : keeps_schemas s s.
Proof. by intros schemas. Qed.

Lemma keeps_schemas_trans s1 s2 s3 :
  keeps_schemas s1 s2 → keeps_schemas s2 s3 → keeps_schemas s1 s3.
Proof. intros H12 H23 schemas Hs. by apply H23, H12. Qed.

Lemma keeps_results_refl s : keeps_results s s.
Proof. split; [apply keeps_schemas_refl | done]. Qed.

Lemma keeps_results_trans s1 s2 s3 :
  keeps_results s1 s2 → keeps_results s2 s3 → keeps_results s1 s3.
Proof.
  intros [Hs12 Hr12] [Hs23 Hr23]. split.
  - by eapply keeps_schemas_trans.
  - intros uri result Hu. by apply Hr23, Hr12.
Qed.

Lemma bind_Some {A B} (m : M A) (f : A → M B) s b s' :
  bind m f s = Some (b, s') →
  ∃ a s1, m s = Some (a, s1) ∧ f a s1 = Some (b, s').
Proof.
  unfold bind. destruct (m s) as [[a s1] |]; [| done]. intros Hf. by exists a, s1.
Qed.

Lemma preserves_ret {A} (a : A) : preserves keeps_results (ret a).
Proof. intros s a' s' [= _ <-]. apply keeps_results_refl. Qed.

Lemma preserves_bind {A B} (m : M A) (f : A → M B) :
  preserves keeps_results m →
  (∀ a, preserves keeps_results (f a)) →
  preserves keeps_results (bind m f).
Proof.
  intros Hm Hf s b s' (a & s1 & Hms & Hfs)%bind_Some.
  eapply keeps_results_trans; [by eapply Hm | by eapply Hf].
Qed.

Lemma preserves_getPaginatedJson fuel uri :
  preserves keeps_results (getPaginatedJson fuel uri).
Proof.
  intros s r s' (Hp & _ & Hr & _)%getPaginatedJson_frame. split.
  - intros schemas. by rewrite Hp.
  - intros u result. by rewrite Hr.
Qed.

Lemma preserves_getPaginatedJsonCache fuel uri :
  preserves keeps_results (getPaginatedJsonCache fuel uri).
Proof.
  intros s r s'. unfold getPaginatedJsonCache.
  destruct (resultsCache s !! uri) as [hit |] eqn:Hhit.
  - intros [= _ <-]. apply keeps_results_refl.
  - intros (result & s1 & Hrun & Hstore)%bind_Some.
    apply getPaginatedJson_frame in Hrun as (Hp & _ & Hr & _).
    injection Hstore as _ <-. split.
    + intros schemas. simpl. by rewrite Hp.
    + intros u x Hu. simpl. rewrite Hr.
      destruct (decide (uri = u)) as [-> | Hne]; [congruence |].
      by rewrite lookup_insert_ne.
Qed.

Lemma preserves_fetcher cfg fuel uri : preserves keeps_results (fetcher_of cfg fuel uri).
Proof.
  unfold fetcher_of. destruct (cache cfg).
  - apply preserves_getPaginatedJsonCache.
  - apply preserves_getPaginatedJson.
Qed.

Lemma preserves_Promise_map {A} (f : value → M (settled A)) xs :
  (∀ x, preserves keeps_results (f x)) →
  preserves keeps_results (Promise_map xs f).
Proof.
  intros Hf. induction xs as [| x xs IH]; simpl.
  - apply preserves_ret.
  - apply preserves_bind; [done |]. intros [a | e]; [| apply preserves_ret].
    apply preserves_bind; [done |]. intros [others | e]; apply preserves_ret.
Qed.

Lemma preserves_getPluginScheme fuel plugin schemaRoute :
  preserves keeps_results (getPluginScheme fuel plugin schemaRoute).
Proof.
  apply preserves_bind; [apply preserves_getPaginatedJson |].
  intros [scheme | e]; apply preserves_ret.
Qed.

Lemma preserves_fetchConsumers cfg fuel :
  preserves keeps_results (fetchConsumers (adminApi cfg) fuel).
Proof.
  simpl. destruct (ignoreConsumers cfg); [apply preserves_ret |].
  apply preserves_bind; [apply (preserves_fetcher cfg) |].
  intros [all | e]; apply preserves_ret.
Qed.

Lemma preserves_fetchPluginSchemas cfg fuel :
  preserves keeps_results (fetchPluginSchemas (adminApi cfg) fuel).
Proof.
  intros s r s'. simpl.
  destruct (pluginSchemasCache s) as [schemas |] eqn:Hcache.
  { intros [= _ <-]. apply keeps_results_refl. }
  intros (got & s1 & Hfetch & Hthen)%bind_Some.
  apply (preserves_fetcher cfg) in Hfetch as [_ Hr1].
  assert (Hdone : ∀ out : settled Map, ret out s1 = Some (r, s') → keeps_results s s').
  { intros out [= _ <-]. split; [intros schemas; congruence | done]. }
  destruct got as [body | e]; [| by eapply Hdone].
  destruct (cbind (Get body "enabled_plugins") getEnabledPluginNames)
    as [names | e]; [| by eapply Hdone].
  apply bind_Some in Hthen as (all & s2 & Hmap & Hset).
  apply preserves_Promise_map in Hmap as [_ Hr2];
    [| intros x; apply preserves_getPluginScheme].
  destruct all as [entries | e].
  - injection Hset as _ <-. split; [intros schemas; congruence |].
    intros uri result Hu. simpl. by apply Hr2, Hr1.
  - injection Hset as _ <-. split; [intros schemas; congruence |].
    intros uri result Hu. by apply Hr2, Hr1.
Qed.

Lemma preserves_fetchKongVersion cfg fuel :
  preserves keeps_results (fetchKongVersion (adminApi cfg) fuel).
Proof.
  intros s r s'. simpl.
  destruct (cached_version (kongVersionCache s)) as [v |].
  { intros [= _ <-]. apply keeps_results_refl. }
  intros (got & s1 & Hfetch & Hthen)%bind_Some.
  apply (preserves_fetcher cfg) in Hfetch.
  destruct got as [body | e]; [| injection Hthen as _ <-; done].
  destruct (cbind (Get body "version") parseVersion) as [v | e];
    injection Hthen as _ <-; [| done].
  destruct Hfetch as [Hs Hr]. split; [intros schemas Hsch; by apply Hs in Hsch | done].
Qed.

(** [requestEndpoint] always goes through, and empties the results cache
    while leaving the other two caches as they are. *)
Lemma requestEndpoint_runs router fetch cfg e p s :
  ∃ r w, requester_request (router e) (prepareOptions p) (world s) = (r, w)
         ∧ requestEndpoint (createApi router fetch cfg) e p s
           = Some (r, {| pluginSchemasCache := pluginSchemasCache s;
                         kongVersionCache := kongVersionCache s;
                         resultsCache := ∅;
                         world := w;
                         calls := calls s ++ [REQUEST (router e) (prepareOptions p)] |}).
Proof.
  simpl. unfold bind, set_resultsCache, request_. simpl.
  destruct (requester_request (router e) (prepareOptions p) (world s)) as [r w].
  by exists r, w.
Qed.

(** Every operation keeps the plugin schemas; all but [requestEndpoint] keep
    the entries of the results cache as well. *)
Lemma run_op_keeps cfg fuel o s s' :
  run_op (adminApi cfg) fuel o s = Some (tt, s') →
  keeps_schemas s s' ∧ (is_RequestEndpoint o = false → keeps_results s s').
Proof.
  assert (Hdrop : ∀ A (m : M A), preserves keeps_results m →
            drop m s = Some (tt, s') →
            keeps_schemas s s' ∧ (is_RequestEndpoint o = false → keeps_results s s')).
  { intros A m Hm (a & s1 & Hrun & [= <-])%bind_Some.
    apply Hm in Hrun. split; [apply Hrun | done]. }
  destruct o; unfold run_op;
    try (apply Hdrop; first
           [ apply (preserves_fetcher cfg)
           | apply preserves_fetchConsumers
           | apply preserves_fetchPluginSchemas
           | apply preserves_fetchKongVersion ]).
  - intros (r & s1 & Hrun & [= <-])%bind_Some.
    destruct (requestEndpoint_runs (createRouter (host cfg) (https cfg))
                (fetcher_of cfg) cfg e p s) as (r' & w' & _ & Heq).
    unfold adminApi in Hrun. rewrite Heq in Hrun. injection Hrun as _ <-. split; [by intros schemas | done].
  - intros [= <-]. split; [by intros schemas |]. intros _. by split; [intros schemas |].
Qed.

Lemma run_keeps_schemas s steps s' : run s steps s' → keeps_schemas s s'.
Proof.
  induction 1 as [s | s cfg fuel o s1 rest s2 Hop _ IH]; [apply keeps_schemas_refl |].
  eapply keeps_schemas_trans; [| done]. by apply run_op_keeps in Hop as [? _].
Qed.

Lemma run_keeps_results s steps s' :
  run s steps s' →
  Forall (λ step, is_RequestEndpoint step.2 = false) steps →
  keeps_results s s'.
Proof.
  induction 1 as [s | s cfg fuel o s1 rest s2 Hop _ IH]; [intros _; apply keeps_results_refl |].
  intros [Ho Hrest]%Forall_cons. simpl in Ho.
  eapply keeps_results_trans; [| by apply IH]. by apply run_op_keeps in Hop as [_ ?]; auto.
Qed.

(** ** The caches *)

(** A fetch through the caching aggregator leaves its result under the URI. *)
Lemma getPaginatedJsonCache_stores fuel uri s r s1 :
  getPaginatedJsonCache fuel uri s = Some (r, s1) →
  resultsCache s1 !! uri = Some r.
Proof.
  unfold getPaginatedJsonCache.
  destruct (resultsCache s !! uri) as [hit |] eqn:Hhit.
  - by intros [= <- <-].
  - intros (result & s0 & _ & [= <- <-])%bind_Some. simpl. apply lookup_insert_eq.
Qed.

(** A hit is answered from the cache: no request, no change at all. *)
Lemma getPaginatedJsonCache_hit fuel uri s r :
  resultsCache s !! uri = Some r →
  getPaginatedJsonCache fuel uri s = Some (r, s).
Proof. intros Hhit. unfold getPaginatedJsonCache. by rewrite Hhit. Qed.

(** A miss runs the aggregator and stores what it yields. *)
Lemma getPaginatedJsonCache_miss fuel uri s :
  resultsCache s !! uri = None →
  getPaginatedJsonCache fuel uri s
  = (let* result := getPaginatedJson fuel (JStr uri) in
     let* _ := store_result uri result in
     ret result) s.
Proof. intros Hmiss. unfold getPaginatedJsonCache. by rewrite Hmiss. Qed.

Lemma fetchPluginSchemas_hit cfg fuel s schemas :
  pluginSchemasCache s = Some schemas →
  fetchPluginSchemas (adminApi cfg) fuel s = Some (Fulfilled schemas, s).
Proof. intros Hc. simpl. by rewrite Hc. Qed.

(** A fulfilled [fetchPluginSchemas] leaves its answer in the cache. *)
Lemma fetchPluginSchemas_sets cfg fuel s schemas s1 :
  fetchPluginSchemas (adminApi cfg) fuel s = Some (Fulfilled schemas, s1) →
  pluginSchemasCache s1 = Some schemas.
Proof.
  simpl. destruct (pluginSchemasCache s) as [cached |] eqn:Hcache.
  { by intros [= <- <-]. }
  intros (got & s0 & _ & Hthen)%bind_Some.
  destruct got as [body | e]; [| done].
  destruct (cbind (Get body "enabled_plugins") getEnabledPluginNames)
    as [names | e]; [| done].
  apply bind_Some in Hthen as (all & s2 & _ & Hset).
  destruct all as [entries | e]; [| done].
  by injection Hset as <- <-.
Qed.

(** C4, amended. The three caches belong to the module, not to a facade,
    so the facades of one process share them: what a caching facade has
    fetched from a URI is answered from the cache to any other caching
    facade that asks for that URI, without a request;
    [requestEndpoint] through any facade empties the results cache that all
    of them read; and the plugin schemas or the version obtained through one
    facade are what every other facade answers, without a request. *)
Theorem caches_shared_by_facades (A B : config) s :
  (∀ fuel uri r s1,
     cache A = true → cache B = true →
     fetcher_of A fuel uri s = Some (r, s1) →
     ∀ fuel', fetcher_of B fuel' uri s1 = Some (r, s1))
  ∧ (∀ e p r s1,
       requestEndpoint (adminApi A) e p s = Some (r, s1) →
       resultsCache s1 = ∅
       ∧ ∀ fuel uri, cache B = true →
           fetcher_of B fuel uri s1
           = (let* result := getPaginatedJson fuel (JStr uri) in
              let* _ := store_result uri result in
              ret result) s1)
  ∧ (∀ fuel schemas s1,
       fetchPluginSchemas (adminApi A) fuel s = Some (Fulfilled schemas, s1) →
       ∀ fuel', fetchPluginSchemas (adminApi B) fuel' s1 = Some (Fulfilled schemas, s1))
  ∧ (∀ fuel v s1,
       fetchKongVersion (adminApi A) fuel s = Some (Fulfilled v, s1) →
       version_truthy v = true →
       ∀ fuel', fetchKongVersion (adminApi B) fuel' s1 = Some (Fulfilled v, s1)).
Proof.
  split; [| split; [| split]].
  - intros fuel uri r s1 HA HB Hfetch fuel'.
    unfold fetcher_of in *. rewrite HA in Hfetch. rewrite HB.
    apply getPaginatedJsonCache_hit. by apply getPaginatedJsonCache_stores in Hfetch.
  - intros e p r s1 Hreq.
    destruct (requestEndpoint_runs (createRouter (host A) (https A))
                (fetcher_of A) A e p s) as (r' & w' & _ & Heq).
    unfold adminApi in Hreq. rewrite Heq in Hreq. injection Hreq as _ <-.
    split; [done |]. intros fuel uri HB.
    unfold fetcher_of. rewrite HB. by rewrite getPaginatedJsonCache_miss.
  - intros fuel schemas s1 Hfetch fuel'.
    apply fetchPluginSchemas_hit. by apply fetchPluginSchemas_sets in Hfetch.
  - intros fuel v s1 Hfetch Htruthy fuel'.
    assert (Hset : kongVersionCache s1 = Some v).
    { simpl in Hfetch.
      destruct (kongVersionCache s) as [cached |] eqn:Hcache; simpl in Hfetch.
      - destruct (version_truthy cached) eqn:Hc.
        + injection Hfetch as <- <-. done.
        + apply bind_Some in Hfetch as (got & s0 & _ & Hthen).
          destruct got as [body | e]; [| done].
          destruct (cbind (Get body "version") parseVersion) as [v' | e]; [| done].
          by injection Hthen as <- <-.
      - apply bind_Some in Hfetch as (got & s0 & _ & Hthen).
        destruct got as [body | e]; [| done].
        destruct (cbind (Get body "version") parseVersion) as [v' | e]; [| done].
        by injection Hthen as <- <-. }
    simpl. rewrite Hset. simpl. by rewrite Htruthy.
Qed.

(** C5. Every call of [requestEndpoint] goes through and leaves the results
    cache empty, whatever it held; after it a caching fetch of any URI,
    cached before or not, misses: it runs the aggregator afresh, so its
    first effect is a new GET of that URI. *)
Theorem requestEndpoint_resets_resultsCache cfg e p s :
  ∃ r s1,
    requestEndpoint (adminApi cfg) e p s = Some (r, s1)
    ∧ resultsCache s1 = ∅
    ∧ (∀ fuel uri,
         getPaginatedJsonCache fuel uri s1
         = (let* result := getPaginatedJson fuel (JStr uri) in
            let* _ := store_result uri result in
            ret result) s1)
    ∧ (∀ fuel uri result s2,
         getPaginatedJsonCache fuel uri s1 = Some (result, s2) →
         ∃ more, calls s2 = calls s1 ++ GET (JStr uri) :: more)
    ∧ (∀ cfg' fuel, cache cfg' = true →
         fetchApis (adminApi cfg') fuel s1
         = getPaginatedJsonCache fuel
             (createRouter (host cfg') (https cfg') (route "apis" [])) s1).
Proof.
  destruct (requestEndpoint_runs (createRouter (host cfg) (https cfg))
              (fetcher_of cfg) cfg e p s) as (r & w & _ & Heq).
  eexists r, _. split; [exact Heq |]. split; [done |].
  assert (Hmiss : ∀ fuel uri (s1 : state),
            resultsCache s1 = ∅ →
            getPaginatedJsonCache fuel uri s1
            = (let* result := getPaginatedJson fuel (JStr uri) in
               let* _ := store_result uri result in
               ret result) s1).
  { intros fuel uri s1 Hempty. apply getPaginatedJsonCache_miss. by rewrite Hempty. }
  split; [intros fuel uri; by apply Hmiss |]. split.
  - intros fuel uri result s2. rewrite Hmiss by done.
    intros (got & s0 & Hrun & [= _ <-])%bind_Some.
    apply getPaginatedJson_frame in Hrun as (_ & _ & _ & more & Hcalls).
    by exists more.
  - intros cfg' fuel Hcache. simpl. unfold fetcher_of. by rewrite Hcache.
Qed.

(** C6. Once [fetchPluginSchemas] has been fulfilled, its answer is in the
    cache and stays there through whatever the process does next with any
    facade, [requestEndpoint] and changes of the gateway included: every
    later call is answered with the same schemas and issues no request. *)
Theorem fetchPluginSchemas_cached_for_good cfg fuel s schemas s1 :
  fetchPluginSchemas (adminApi cfg) fuel s = Some (Fulfilled schemas, s1) →
  pluginSchemasCache s1 = Some schemas
  ∧ ∀ steps s2, run s1 steps s2 →
      pluginSchemasCache s2 = Some schemas
      ∧ ∀ cfg' fuel', fetchPluginSchemas (adminApi cfg') fuel' s2
                      = Some (Fulfilled schemas, s2).
Proof.
  intros Hfetch. apply fetchPluginSchemas_sets in Hfetch. split; [done |].
  intros steps s2 Hrun. apply run_keeps_schemas in Hrun.
  split; [by apply Hrun |]. intros cfg' fuel'. apply fetchPluginSchemas_hit. by apply Hrun.
Qed.

(** C7. With [ignoreConsumers] set, [fetchConsumers] answers the empty list
    and leaves the state as it was: no request goes out, whatever bound on
    requests it is given. *)
Theorem fetchConsumers_ignoreConsumers cfg fuel s :
  ignoreConsumers cfg = true →
  fetchConsumers (adminApi cfg) fuel s = Some (Fulfilled (JArr []), s).
Proof. intros Hignore. simpl. by rewrite Hignore. Qed.

(** C10. With the caching aggregator, a fetch that misses and whose request
    fails leaves the rejection under the URI. From then on, through any
    steps of the process other than [requestEndpoint], a fetch of that URI
    is answered with the same rejection and changes nothing: no request
    goes out. A [requestEndpoint] removes the entry. *)
Theorem getPaginatedJsonCache_keeps_rejection fuel uri s e s0 :
  resultsCache s !! uri = None →
  getPaginatedJson fuel (JStr uri) s = Some (Rejected e, s0) →
  ∃ s1,
    getPaginatedJsonCache fuel uri s = Some (Rejected e, s1)
    ∧ resultsCache s1 !! uri = Some (Rejected e)
    ∧ (∀ steps s2,
         run s1 steps s2 →
         Forall (λ step, is_RequestEndpoint step.2 = false) steps →
         ∀ fuel', getPaginatedJsonCache fuel' uri s2 = Some (Rejected e, s2))
    ∧ (∀ cfg ep p r s2,
         requestEndpoint (adminApi cfg) ep p s1 = Some (r, s2) →
         resultsCache s2 !! uri = None).
Proof.
  intros Hmiss Hrun.
  assert (Hcached : ∃ s1, getPaginatedJsonCache fuel uri s = Some (Rejected e, s1)).
  { rewrite getPaginatedJsonCache_miss by done. unfold bind. rewrite Hrun. simpl. eauto. }
  destruct Hcached as [s1 Hcached]. exists s1.
  pose proof (getPaginatedJsonCache_stores _ _ _ _ _ Hcached) as Hstored.
  repeat split; try done.
  - intros steps s2 Hsteps Hno fuel'.
    apply getPaginatedJsonCache_hit.
    by apply (run_keeps_results _ _ _ Hsteps Hno).
  - intros cfg ep p r s2 Hreq.
    destruct (requestEndpoint_runs (createRouter (host cfg) (https cfg))
                (fetcher_of cfg) cfg ep p s1) as (r' & w' & _ & Heq).
    unfold adminApi in Hreq. rewrite Heq in Hreq. by injection Hreq as _ <-.
Qed.

(** ** Declared consumers *)

Lemma is_declared_key own c k :
  username_key c = Some k →
  is_declared own c = Normal (declared_read own k).
Proof.
  unfold username_key, is_declared.
  destruct (Get c "username") as [username | e]; simpl; [| done].
  destruct (ToString username) as [k' | e]; simpl; [| done]. by intros [= ->].
Qed.

(** A consumer named after a member that every object inherits passes the
    test of the filter, declared or not. *)
Lemma is_declared_inherited own c k :
  username_key c = Some k →
  k ∈ Object_prototype_names →
  is_declared own c = Normal true.
Proof.
  intros Hk Hin. rewrite (is_declared_key _ _ _ Hk). unfold declared_read.
  by rewrite (bool_decide_eq_true_2 _ Hin), orb_true_r.
Qed.

(** [declare] adds the usernames of the declared consumers, [__proto__]
    excepted, to the keys it starts from. *)
Lemma declare_keys declared : ∀ own,
  Forall (λ c, is_Some (username_key c)) declared →
  ∃ own', declare declared own = Normal own'
          ∧ ∀ k, k ∈ own' ↔ k ∈ own ∨ (k ≠ "__proto__" ∧ Some k ∈ username_key <$> declared).
Proof.
  induction declared as [| c rest IH]; intros own Hall.
  - exists own. split; [done |]. intros k. split; [by left |].
    intros [? | [_ Hin]]; [done |]. by apply elem_of_nil in Hin.
  - apply Forall_cons in Hall as [[k0 Hk0] Hrest].
    destruct (IH (declare_key k0 own) Hrest) as (own' & Hdeclare & Hown').
    exists own'. split.
    + simpl. unfold username_key in Hk0.
      destruct (Get c "username") as [username | e]; simpl in *; [| done].
      destruct (ToString username) as [k' | e]; simpl in *; [| done].
      by injection Hk0 as ->.
    + intros k. rewrite Hown'. rewrite fmap_cons, elem_of_cons, Hk0.
      unfold declare_key. destruct (decide (k0 = "__proto__")) as [-> | Hne].
      * split; [| intros [? | [? [? | ?]]]; auto; congruence].
        intros [? | [? ?]]; auto.
      * rewrite elem_of_union, elem_of_singleton. split.
        -- intros [[-> | ?] | [? ?]]; auto.
        -- intros [? | [? [[= ->] | ?]]]; auto.
Qed.

(** Away from the names that every object inherits, the filter of
    [fetchConsumers] keeps the declared consumers and [anonymous], in the
    order fetched. *)
Lemma filter_consumers_declared_only cfg declared fetched :
  ignoreUndeclaredConsumers cfg = true →
  consumers cfg = Some declared →
  Forall (λ c, is_Some (username_key c)) declared →
  Forall (λ c, ∃ k, username_key c = Some k ∧ k ∉ Object_prototype_names) fetched →
  filter_consumers cfg (JArr fetched) = Normal (JArr (declared_only declared fetched)).
Proof.
  intros Hflag Hdeclared Hall Hfetched. unfold filter_consumers.
  rewrite Hflag, Hdeclared.
  destruct (declare_keys declared {["anonymous"]} Hall) as (own & -> & Hown).
  simpl.
  assert (Hfilter : filter_items (is_declared own) fetched
                    = Normal (declared_only declared fetched)).
  { induction Hfetched as [| c rest (k & Hk & Hplain) _ IH]; [done |].
    simpl. rewrite (is_declared_key _ _ _ Hk). simpl. rewrite IH. simpl.
    unfold declared_only at 2. simpl. rewrite Hk. fold (declared_only declared rest).
    unfold declared_read. rewrite (bool_decide_eq_false_2 _ Hplain), orb_false_r.
    assert (Hsame : bool_decide (k ∈ own)
                    = bool_decide (k = "anonymous" ∨ Some k ∈ username_key <$> declared)).
    { apply bool_decide_ext. rewrite Hown, elem_of_singleton.
      split; [intros [? | [_ ?]]; auto |].
      intros [? | ?]; [by left | right]. split; [| done].
      intros ->. apply Hplain. by apply (bool_decide_unpack _). }
    by rewrite Hsame. }
  by rewrite Hfilter.
Qed.

End Facade.

(** * Scenarios

    The statements above, run against the gateway of [Demo]. *)

Module Scenarios.
Import Demo.

Local Ltac evaluate := vm_compute; reflexivity.

Lemma page_at_success (uri : string) (body : value) (s : state) :
  serve uri (world s) = success body →
  page_at s (JStr uri) body (got uri s).
Proof.
  intros Hserve. exists (success body). unfold get. simpl. by rewrite Hserve.
Defined.

(** C1 at work: the first page of [/apis] holds 100 items, so its [next] is
    followed; the second page is short, so its own [next] is not. Two GETs
    yield the 102 items in page order. *)
Lemma getPaginatedJson_follows_next_witness :
  getPaginatedJson 2 (JStr apis) start
  = Some (Fulfilled (JArr (first_page ++ second_page)),
          got apis_next (got apis start))
  ∧ getPaginatedJson 1 (JStr apis_next) start
    = Some (Fulfilled (JArr second_page), got apis_next start).
Proof.
  assert (Hfirst : page_at start (JStr apis) apis_body
                     (got apis start)).
  { apply (page_at_success apis apis_body start). evaluate. }
  destruct (getPaginatedJson_follows_next start (JStr apis) apis_body
              first_page (JStr apis_next) _ Hfirst)
    as [_ Hfull]; [evaluate | evaluate | evaluate | evaluate |].
  destruct Hfull as [_ Hchain]; [vm_compute; lia |].
  assert (Hsecond : ∀ s, page_at s (JStr apis_next) apis_next_body
                           (got apis_next s)).
  { intros s. apply page_at_success. evaluate. }
  split.
  - apply (Hchain [] second_page).
    eapply serves_short;
      [apply (Hsecond (got apis start))
      | evaluate | evaluate | evaluate | vm_compute; lia].
  - destruct (getPaginatedJson_follows_next start (JStr apis_next)
                apis_next_body second_page (JStr (base +:+ "/apis?offset=102")) _
                (Hsecond start))
      as [Hshort _]; [evaluate | evaluate | evaluate | evaluate |].
    destruct Hshort as [_ Hshort]; [vm_compute; lia |]. apply (Hshort 0).
Defined.

(** C2 as worded fails: the body [{"total": 0, "data": null}] has a [data]
    entry and no [next], its [data] is not the empty object, and the fetch
    is rejected with a type error instead of answering [data]. *)
Lemma getPaginatedJson_null_data_rejects :
  page_at start (JStr plugins) (JObj [("total", JNum 0); ("data", JNull)])
    (got plugins start)
  ∧ hasOwnProperty (JObj [("total", JNum 0); ("data", JNull)]) "data" = Normal true
  ∧ hasOwnProperty (JObj [("total", JNum 0); ("data", JNull)]) "next" = Normal false
  ∧ Get (JObj [("total", JNum 0); ("data", JNull)]) "data" = Normal JNull
  ∧ getPaginatedJson 1 (JStr plugins) start
    = Some (Rejected TypeError, got plugins start)
  ∧ getPaginatedJson 1 (JStr plugins) start
    ≠ Some (Fulfilled JNull, got plugins start).
Proof.
  split; [apply (page_at_success plugins _ start); evaluate |].
  repeat split; try evaluate. vm_compute. discriminate.
Qed.

(** C2, amended, at work: [{"data": {}}] is answered with the empty list. *)
Lemma getPaginatedJson_without_next_witness :
  getPaginatedJson 1 (JStr acls) start
  = Some (Fulfilled (JArr []), got acls start).
Proof.
  assert (Hpage : page_at start (JStr acls) (JObj [("data", JObj [])])
                    (got acls start)).
  { apply (page_at_success acls _ start). evaluate. }
  destruct (getPaginatedJson_without_next start (JStr acls)
              (JObj [("data", JObj [])]) (JObj []) _ Hpage) with (fuel := 0)
    as [Hrun _]; [evaluate | evaluate | evaluate | discriminate | discriminate |].
  exact Hrun.
Defined.


(** C4 as worded fails. Two facades with different options: the results
    that one of them has cached are gone for it once the other has called
    [requestEndpoint], and the plugin schemas that one has fetched are
    answered to the other, which never fetched them. *)
Lemma facades_share_the_caches :
  answer (fetchApis (adminApi (options_of (Some [consumer "alice"]) true)) 0)
    (after (fetchApis (adminApi (options_of (Some [consumer "alice"]) true)) 2)
       start)
  = Some (Fulfilled (JArr (first_page ++ second_page)))
  ∧ answer (fetchApis (adminApi (options_of (Some [consumer "alice"]) true)) 0)
      (after (requestEndpoint (adminApi (options_of None true)) (route "plugins" []) post)
         (after (fetchApis (adminApi (options_of (Some [consumer "alice"]) true)) 2)
            start))
    = None
  ∧ answer (fetchPluginSchemas (adminApi (options_of (Some [consumer "alice"]) true)) 0)
      start
    = None
  ∧ answer (fetchPluginSchemas (adminApi (options_of (Some [consumer "alice"]) true)) 0)
      (after (fetchPluginSchemas (adminApi (options_of None true)) 1) start)
    = Some (Fulfilled acl_schemas).
Proof. repeat split; evaluate. Qed.

(** C4, amended, at work. *)
Lemma caches_shared_by_facades_witness :
  fetchPluginSchemas (adminApi (options_of (Some [consumer "alice"]) true)) 0
    (after (fetchPluginSchemas (adminApi (options_of None true)) 1) start)
  = Some (Fulfilled acl_schemas,
          after (fetchPluginSchemas (adminApi (options_of None true)) 1) start).
Proof.
  destruct (caches_shared_by_facades (options_of None true)
              (options_of (Some [consumer "alice"]) true) start)
    as (_ & _ & Hschemas & _).
  apply (Hschemas 1 acl_schemas). evaluate.
Defined.

(** C5 at work: a cached fetch, a [requestEndpoint], and the same fetch
    again, which sends its two GETs anew. *)
Lemma requestEndpoint_resets_resultsCache_witness :
  calls (after (fetchApis (adminApi (options_of None true)) 2)
           (after (fetchApis (adminApi (options_of None true)) 2) start))
  = [GET (JStr apis); GET (JStr apis_next)]
  ∧ calls (after (fetchApis (adminApi (options_of None true)) 2)
             (after (requestEndpoint (adminApi (options_of None true))
                       (route "plugins" []) post)
                (after (fetchApis (adminApi (options_of None true)) 2) start)))
    = [GET (JStr apis); GET (JStr apis_next);
       REQUEST (base +:+ "/plugins") (prepareOptions post);
       GET (JStr apis); GET (JStr apis_next)]
  ∧ ∃ r s1,
      requestEndpoint (adminApi (options_of None true)) (route "plugins" []) post
        (after (fetchApis (adminApi (options_of None true)) 2) start)
      = Some (r, s1)
      ∧ resultsCache s1 = ∅.
Proof.
  split; [evaluate |]. split; [evaluate |].
  destruct (requestEndpoint_resets_resultsCache (options_of None true)
              (route "plugins" []) post
              (after (fetchApis (adminApi (options_of None true)) 2) start))
    as (r & s1 & Hrun & Hempty & _).
  by exists r, s1.
Defined.

(** C6 at work: the first call finds [acl] enabled; a [requestEndpoint]
    then enables [jwt] on the gateway, as a process starting afterwards
    finds; the second call still answers the schemas of the first and sends
    nothing. *)
Lemma fetchPluginSchemas_cached_for_good_witness :
  answer (fetchPluginSchemas (adminApi (options_of None false)) 1) start
  = Some (Fulfilled acl_schemas)
  ∧ answer (fetchPluginSchemas (adminApi (options_of None false)) 1) start_later
    = Some (Fulfilled (acl_schemas
                       ++ [(JStr "jwt", JObj [("key_claim_name", JStr "string")])]))
  ∧ fetchPluginSchemas (adminApi (options_of None true)) 1
      (after (requestEndpoint (adminApi (options_of None false)) (route "plugins" []) post)
         (after (fetchPluginSchemas (adminApi (options_of None false)) 1) start))
    = Some (Fulfilled acl_schemas,
            after (requestEndpoint (adminApi (options_of None false))
                     (route "plugins" []) post)
              (after (fetchPluginSchemas (adminApi (options_of None false)) 1)
                 start)).
Proof.
  split; [evaluate |]. split; [evaluate |].
  destruct (fetchPluginSchemas_cached_for_good (options_of None false) 1 start
              acl_schemas
              (after (fetchPluginSchemas (adminApi (options_of None false)) 1) start))
    as [_ Hlater]; [evaluate |].
  destruct (Hlater [(options_of None false, 0, RequestEndpoint (route "plugins" []) post)]
              (after (requestEndpoint (adminApi (options_of None false))
                        (route "plugins" []) post)
                 (after (fetchPluginSchemas (adminApi (options_of None false)) 1)
                    start)))
    as [_ Hsame].
  { eapply run_cons; [evaluate | apply run_nil]. }
  apply Hsame.
Defined.

(** C7 at work. *)
Lemma fetchConsumers_ignoreConsumers_witness :
  fetchConsumers (adminApi without_consumers) 0 start
  = Some (Fulfilled (JArr []), initial 0).
Proof. apply fetchConsumers_ignoreConsumers. reflexivity. Defined.

(** C8 on the code. Only [alice] is declared, and the gateway holds
    [alice], [constructor], [bob] and [anonymous]: the filter drops [bob]
    but keeps [constructor], which a declared-only filter drops. *)
Theorem fetchConsumers_keeps_inherited_name :
  fetchConsumers (adminApi (options_of (Some [consumer "alice"]) false)) 1 start
  = Some (Fulfilled (JArr [consumer "alice"; consumer "constructor"; consumer "anonymous"]),
          got (base +:+ "/consumers") start)
  ∧ declared_only [consumer "alice"]
      [consumer "alice"; consumer "constructor"; consumer "bob"; consumer "anonymous"]
    = [consumer "alice"; consumer "anonymous"].
Proof. split; evaluate. Qed.

(** The example of the specification: [alice] declared, and [alice], [bob],
    [anonymous] fetched. *)
Lemma filter_consumers_example :
  filter_consumers (options_of (Some [consumer "alice"]) false)
    (JArr [consumer "alice"; consumer "bob"; consumer "anonymous"])
  = Normal (JArr [consumer "alice"; consumer "anonymous"]).
Proof. evaluate. Qed.

(** C9 as worded fails twice. The body of [/upstreams] has an object for
    [data] and a [next] that answers 404: the fetch is rejected with the
    HTTP error of [next], not with a type error. The body of
    [/upstreams/u1/targets] has [{"length": 5}] for [data]: the guard holds
    and the fetch is fulfilled with that object. *)
Lemma getPaginatedJson_object_data_other_outcomes :
  getPaginatedJson 2 (JStr upstreams) start
  = Some (Rejected (HttpError "http://kong:8001/certificates: 404 Not Found" not_found),
          got certificates (got upstreams start))
  ∧ getPaginatedJson 1 (JStr targets_u1) start
    = Some (Fulfilled (JObj [("length", JNum 5)]),
            got targets_u1 start).
Proof. split; evaluate. Qed.

(** C9, amended, at work: [data] is [{"weight": 5}] and [next] is answered,
    so the fetch is rejected with a type error after the second GET. *)
Lemma getPaginatedJson_object_data_with_next_witness :
  getPaginatedJson 2 (JStr targets_u2) start
  = Some (Rejected TypeError,
          got apis_next (got targets_u2 start)).
Proof.
  assert (Hpage : page_at start (JStr targets_u2)
                    (JObj [("data", JObj [("weight", JNum 5)]); ("next", JStr apis_next)])
                    (got targets_u2 start)).
  { apply (page_at_success targets_u2 _ start). evaluate. }
  destruct (getPaginatedJson_object_data_with_next start (JStr targets_u2) _
              [("weight", JNum 5)] (JStr apis_next) _ Hpage)
    as [_ Hrun]; [evaluate | evaluate | evaluate | evaluate |].
  rewrite Hrun by evaluate. evaluate.
Defined.

(** C10 at work: the 404 of [/certificates] is fetched once; the second
    fetch is answered from the cache with the same rejection, and a third
    one after [requestEndpoint] goes to the gateway again. *)
Lemma getPaginatedJsonCache_keeps_rejection_witness :
  ∃ s1,
    getPaginatedJsonCache 1 certificates start
    = Some (Rejected (HttpError "http://kong:8001/certificates: 404 Not Found" not_found),
            s1)
    ∧ calls s1 = [GET (JStr certificates)]
    ∧ getPaginatedJsonCache 0 certificates s1
      = Some (Rejected (HttpError "http://kong:8001/certificates: 404 Not Found"
                          not_found), s1)
    ∧ calls (after (getPaginatedJsonCache 1 certificates)
               (after (requestEndpoint (adminApi (options_of None true))
                         (route "plugins" []) post) s1))
      = [GET (JStr certificates);
         REQUEST (base +:+ "/plugins") (prepareOptions post);
         GET (JStr certificates)].
Proof.
  destruct (getPaginatedJsonCache_keeps_rejection 1 certificates start
              (HttpError "http://kong:8001/certificates: 404 Not Found" not_found)
              (got certificates start))
    as (s1 & Hrun & _ & Hlater & _); [evaluate | evaluate |].
  exists s1. split; [exact Hrun |].
  assert (s1 = after (getPaginatedJsonCache 1 certificates) start) as ->.
  { unfold after. by rewrite Hrun. }
  split; [evaluate |]. split; [| evaluate].
  apply (Hlater []); [apply run_nil | apply Forall_nil_2].
Defined.

End Scenarios.

(** * Further properties of the aggregator *)

Section AggregatorRuns.
Context `{Collaborators}.

Lemma pretty_N_go_not_data x s : s ≠ "data" → pretty_N_go x s ≠ "data".
Proof.
  revert s. induction (N.lt_wf_0 x) as [x _ IH]; intros s Hs.
  assert (x = 0 ∨ 0 < x)%N as [-> | Hpos] by lia.
  - by rewrite pretty_N_go_0.
  - rewrite pretty_N_go_step by done. apply IH.
    { by apply N.div_lt. }
    unfold pretty_N_char. by repeat case_match.
Qed.

(** No index of an array or of a string is called [data]. *)
Lemma index_keys_not_data n : "data" ∉ index_keys n.
Proof.
  unfold index_keys. intros (i & Hi & _)%list_elem_of_fmap.
  unfold pretty, pretty_nat, pretty, pretty_N in Hi.
  destruct (decide (N.of_nat i = 0%N)); [done |].
  by apply (pretty_N_go_not_data (N.of_nat i) "").
Qed.

Lemma hasOwnProperty_data_primitive body :
  (∀ fields, body ≠ JObj fields) → body ≠ JNull → body ≠ JUndefined →
  hasOwnProperty body "data" = Normal false.
Proof.
  intros Hobj Hnull Hundef.
  destruct body as [| | b | n | str | items | fields]; simpl; try done.
  - f_equal. apply bool_decide_eq_false_2. intros [? | ?]; [done |].
    by eapply index_keys_not_data.
  - f_equal. apply bool_decide_eq_false_2. intros [? | ?]; [done |].
    by eapply index_keys_not_data.
  - by destruct (Hobj fields).
Qed.

(** X1. A body on which the test for an own [data] says no is the answer,
    as it is, after the one GET: so it is for every array, string, number
    or boolean. A body on which the test throws ([null], or an object with
    an own [hasOwnProperty] entry) rejects the fetch with that error. *)
Theorem getPaginatedJson_body_without_data s uri body s1 :
  page_at s uri body s1 →
  calls s1 = calls s ++ [GET uri]
  ∧ (hasOwnProperty body "data" = Normal false →
     ∀ fuel, getPaginatedJson (S fuel) uri s = Some (Fulfilled body, s1))
  ∧ ((∀ fields, body ≠ JObj fields) → body ≠ JNull → body ≠ JUndefined →
     ∀ fuel, getPaginatedJson (S fuel) uri s = Some (Fulfilled body, s1))
  ∧ (∀ e, hasOwnProperty body "data" = Throw e →
     ∀ fuel, getPaginatedJson (S fuel) uri s = Some (Rejected e, s1)).
Proof.
  intros Hpage.
  assert (Hno : hasOwnProperty body "data" = Normal false →
                ∀ fuel, getPaginatedJson (S fuel) uri s = Some (Fulfilled body, s1)).
  { intros Hdata fuel. rewrite (getPaginatedJson_page _ _ _ _ _ Hpage).
    unfold read_page. by rewrite Hdata. }
  split; [by apply page_at_calls in Hpage as [? _] |].
  split; [done |]. split.
  - intros Hobj Hnull Hundef. by apply Hno, hasOwnProperty_data_primitive.
  - intros e Hthrow fuel. rewrite (getPaginatedJson_page _ _ _ _ _ Hpage).
    unfold read_page. by rewrite Hthrow.
Qed.

Lemma full_pages_run s uri pages next s1 :
  full_pages s uri pages next s1 →
  ∀ fuel, getPaginatedJson (length pages + fuel) uri s =
    match pages with
    | [] => getPaginatedJson fuel next s1
    | _ :: _ =>
        match getPaginatedJson fuel next s1 with
        | None => None
        | Some (Rejected e, s2) => Some (Rejected e, s2)
        | Some (Fulfilled more, s2) =>
            Some (Fulfilled (JArr (List.concat pages ++ spread more)), s2)
        end
    end.
Proof.
  induction 1 as [s uri
                 | s uri body items link s1 pages next s2 Hpage Hd Hn Hg Hl Hlen Hrest IH];
    intros fuel; [done |].
  change (length (items :: pages) + fuel) with (S (length pages + fuel)).
  rewrite (getPaginatedJson_page _ _ _ _ _ Hpage).
  rewrite (read_page_full _ _ _ Hd Hn Hg Hl Hlen), IH.
  destruct pages as [| page pages].
  - destruct (getPaginatedJson fuel next s2) as [[[more | e] s3] |]; try done.
    simpl. by rewrite app_nil_r.
  - destruct (getPaginatedJson fuel next s2) as [[[more | e] s3] |]; try done.
    simpl. by rewrite <- !app_assoc.
Qed.

(** X2. Behind full pages the aggregator goes on with the link of the last
    of them, and what that fetch does decides the whole: its answer is
    appended to the pages, in page order; its rejection, whatever the
    reason, rejects the whole fetch, and the pages read so far are
    dropped; and as long as it does not settle, neither does the whole. *)
Theorem getPaginatedJson_after_full_pages s uri items pages next s1 :
  full_pages s uri (items :: pages) next s1 →
  ∀ fuel, getPaginatedJson (S (length pages) + fuel) uri s =
    match getPaginatedJson fuel next s1 with
    | None => None
    | Some (Rejected e, s2) => Some (Rejected e, s2)
    | Some (Fulfilled more, s2) =>
        Some (Fulfilled (JArr (items ++ List.concat pages ++ spread more)), s2)
    end.
Proof.
  intros Hpages fuel.
  change (S (length pages) + fuel) with (length (items :: pages) + fuel).
  rewrite (full_pages_run _ _ _ _ _ Hpages fuel).
  destruct (getPaginatedJson fuel next s1) as [[[more | e] s2] |]; try done.
  simpl. by rewrite <- app_assoc.
Qed.

(** X3. Where every page is full and links to another such page, the
    aggregator never settles: whatever the bound on requests, it is used
    up. *)
Theorem getPaginatedJson_endless (P : value → Prop) :
  endless P →
  ∀ fuel uri s, P uri → getPaginatedJson fuel uri s = None.
Proof.
  intros Hendless. induction fuel as [| fuel IH]; intros uri s Huri; [done |].
  destruct (Hendless uri Huri s)
    as (body & items & next & s1 & Hpage & Hd & Hn & Hg & Hl & Hlen & Hnext).
  rewrite (getPaginatedJson_page _ _ _ _ _ Hpage).
  rewrite (read_page_full _ _ _ Hd Hn Hg Hl Hlen).
  by rewrite (IH next s1 Hnext).
Qed.

End AggregatorRuns.

(** * Footprints of the operations *)

Section Footprints.
Context `{Collaborators}.

Lemma footprint_refl cached s : footprint cached s s.
Proof.
  repeat split.
  - exists []. by rewrite app_nil_r.
  - by left.
  - by left.
  - by destruct cached.
Qed.

Lemma footprint_trans cached s1 s2 s3 :
  footprint cached s1 s2 → footprint cached s2 s3 → footprint cached s1 s3.
Proof.
  intros ((more1 & Hc1 & Hg1) & Hp1 & Hv1 & Hr1) ((more2 & Hc2 & Hg2) & Hp2 & Hv2 & Hr2).
  repeat split.
  - exists (more1 ++ more2). rewrite Hc2, Hc1, app_assoc. split; [done |].
    by apply Forall_app.
  - destruct Hp1 as [Hp1 | ?]; [| by right].
    destruct Hp2 as [Hp2 | Hp2]; [left | right]; congruence.
  - destruct Hv1 as [Hv1 | ?]; [| by right].
    destruct Hv2 as [Hv2 | Hv2]; [left | right]; congruence.
  - destruct cached; [| congruence]. intros uri result Hu. by apply Hr2, Hr1.
Qed.

(** A footprint that leaves the results cache alone is one of a caching
    facade too. *)
Lemma footprint_uncached cached s s' : footprint false s s' → footprint cached s s'.
Proof.
  intros (Hc & Hp & Hv & Hr). repeat split; try done.
  destruct cached; [| done]. intros uri result. simpl in Hr. by rewrite Hr.
Qed.

Lemma footprint_ret cached {A} (a : A) : preserves (footprint cached) (ret a).
Proof. intros s a' s' [= _ <-]. apply footprint_refl. Qed.

Lemma footprint_bind cached {A B} (m : M A) (f : A → M B) :
  preserves (footprint cached) m →
  (∀ a, preserves (footprint cached) (f a)) →
  preserves (footprint cached) (bind m f).
Proof.
  intros Hm Hf s b s' (a & s1 & Hms & Hfs)%bind_Some.
  eapply footprint_trans; [by eapply Hm | by eapply Hf].
Qed.

(** The requests of the aggregator are GET requests. *)
Lemma getPaginatedJson_gets fuel : ∀ uri s r s',
  getPaginatedJson fuel uri s = Some (r, s') →
  ∃ more, calls s' = calls s ++ more ∧ Forall (λ c, is_GET c = true) more.
Proof.
  induction fuel as [| fuel IH]; intros uri s r s'; [done |].
  simpl. unfold bind.
  destruct (get uri s) as [[got s1] |] eqn:Hget; [| done].
  apply get_sent in Hget as (w & _ & ->).
  assert (Hone : ∀ r0 : settled value,
            ret r0 (sent s w (GET uri)) = Some (r, s') →
            ∃ more, calls s' = calls s ++ more ∧ Forall (λ c, is_GET c = true) more).
  { intros r0 [= _ <-]. exists [GET uri]. split; [done |]. by repeat constructor. }
  destruct got as [response | e]; [| by apply Hone].
  destruct (negb (ok response)); [by apply Hone |].
  destruct (json response) as [body |]; [| by apply Hone].
  destruct (read_page body) as [[r0 | data next] | e]; try by apply Hone.
  destruct (getPaginatedJson fuel next (sent s w (GET uri)))
    as [[rest s2] |] eqn:Hrec; [| done].
  apply IH in Hrec as (more & Hc & Hg).
  intros Hret.
  assert (s' = s2) as -> by (destruct rest; by injection Hret).
  exists (GET uri :: more). rewrite Hc. simpl. rewrite <- app_assoc. split; [done |].
  by constructor.
Qed.

Lemma footprint_getPaginatedJson cached fuel uri :
  preserves (footprint cached) (getPaginatedJson fuel uri).
Proof.
  intros s r s' Hrun. apply footprint_uncached.
  pose proof (getPaginatedJson_gets _ _ _ _ _ Hrun) as Hgets.
  apply getPaginatedJson_frame in Hrun as (Hp & Hv & Hr & _).
  repeat split; [done | by left | by left | done].
Qed.

Lemma footprint_getPaginatedJsonCache fuel uri :
  preserves (footprint true) (getPaginatedJsonCache fuel uri).
Proof.
  intros s r s'. unfold getPaginatedJsonCache.
  destruct (resultsCache s !! uri) as [hit |] eqn:Hhit.
  - intros [= _ <-]. apply footprint_refl.
  - intros (result & s1 & Hrun & Hstore)%bind_Some.
    apply (footprint_getPaginatedJson true) in Hrun as (Hc & Hp & Hv & Hr).
    injection Hstore as _ <-. repeat split; try done.
    intros u x Hu. simpl.
    destruct (decide (uri = u)) as [-> | Hne]; [congruence |].
    rewrite lookup_insert_ne by done. by apply Hr.
Qed.

Lemma footprint_fetcher cfg fuel uri :
  preserves (footprint (cache cfg)) (fetcher_of cfg fuel uri).
Proof.
  unfold fetcher_of. destruct (cache cfg).
  - apply footprint_getPaginatedJsonCache.
  - apply footprint_getPaginatedJson.
Qed.

Lemma footprint_getPluginScheme cached fuel plugin schemaRoute :
  preserves (footprint cached) (getPluginScheme fuel plugin schemaRoute).
Proof.
  apply footprint_bind; [apply footprint_getPaginatedJson |].
  intros [scheme | e]; apply footprint_ret.
Qed.

Lemma footprint_Promise_map cached {A} (f : value → M (settled A)) xs :
  (∀ x, preserves (footprint cached) (f x)) →
  preserves (footprint cached) (Promise_map xs f).
Proof.
  intros Hf. induction xs as [| x xs IH]; simpl.
  - apply footprint_ret.
  - apply footprint_bind; [done |]. intros [a | e]; [| apply footprint_ret].
    apply footprint_bind; [done |]. intros [others | e]; apply footprint_ret.
Qed.

Lemma footprint_fetchConsumers cfg fuel :
  preserves (footprint (cache cfg)) (fetchConsumers (adminApi cfg) fuel).
Proof.
  simpl. destruct (ignoreConsumers cfg); [apply footprint_ret |].
  apply footprint_bind; [apply footprint_fetcher |].
  intros [all | e]; apply footprint_ret.
Qed.

Lemma footprint_fetchPluginSchemas cfg fuel :
  preserves (footprint (cache cfg)) (fetchPluginSchemas (adminApi cfg) fuel).
Proof.
  intros s r s'. simpl.
  destruct (pluginSchemasCache s) as [schemas |] eqn:Hcache.
  { intros [= _ <-]. apply footprint_refl. }
  intros (got & s1 & Hfetch & Hthen)%bind_Some.
  apply footprint_fetcher in Hfetch.
  destruct got as [body | e]; [| by injection Hthen as _ <-].
  destruct (cbind (Get body "enabled_plugins") getEnabledPluginNames)
    as [names | e]; [| by injection Hthen as _ <-].
  apply bind_Some in Hthen as (all & s2 & Hmap & Hset).
  apply (footprint_Promise_map (cache cfg)) in Hmap;
    [| intros x; apply footprint_getPluginScheme].
  pose proof (footprint_trans _ _ _ _ Hfetch Hmap) as (Hc & Hp & Hv & Hr).
  destruct all as [entries | e]; injection Hset as _ <-; repeat split; try done.
  by right.
Qed.

Lemma footprint_fetchKongVersion cfg fuel :
  preserves (footprint (cache cfg)) (fetchKongVersion (adminApi cfg) fuel).
Proof.
  intros s r s'. simpl.
  destruct (cached_version (kongVersionCache s)) as [v |] eqn:Hcache.
  { intros [= _ <-]. apply footprint_refl. }
  intros (got & s1 & Hfetch & Hthen)%bind_Some.
  apply footprint_fetcher in Hfetch.
  destruct got as [body | e]; [| by injection Hthen as _ <-].
  destruct (cbind (Get body "version") parseVersion) as [v | e];
    injection Hthen as _ <-; [| done].
  destruct Hfetch as (Hc & Hp & Hv & Hr). repeat split; try done. by right.
Qed.

(** Every operation but [requestEndpoint] stays within the footprint of
    its facade. *)
Lemma run_op_footprint cfg fuel o s s' :
  run_op (adminApi cfg) fuel o s = Some (tt, s') →
  is_RequestEndpoint o = false →
  footprint (cache cfg) s s'.
Proof.
  assert (Hdrop : ∀ A (m : M A), preserves (footprint (cache cfg)) m →
            drop m s = Some (tt, s') → footprint (cache cfg) s s').
  { intros A m Hm (a & s1 & Hrun & [= <-])%bind_Some. by eapply Hm. }
  destruct o; unfold run_op; intros Hrun Hre; try done;
    try (revert Hrun; apply Hdrop; first
           [ apply footprint_fetcher
           | apply footprint_fetchConsumers
           | apply footprint_fetchPluginSchemas
           | apply footprint_fetchKongVersion ]).
  injection Hrun as <-. repeat split; simpl.
  - exists []. by rewrite app_nil_r.
  - by left.
  - by left.
  - by destruct (cache cfg).
Qed.

(** X4. Fetching only reads: whatever is fetched, through whatever
    facade, the requests it adds to those already sent are GET requests (a
    change of the gateway adds none). [requestEndpoint] adds one request,
    the one it was asked for, and no GET. *)
Theorem operations_request_log cfg fuel o s s' :
  run_op (adminApi cfg) fuel o s = Some (tt, s') →
  match o with
  | RequestEndpoint e p =>
      calls s' = calls s ++ [REQUEST (createRouter (host cfg) (https cfg) e)
                               (prepareOptions p)]
  | _ => ∃ more, calls s' = calls s ++ more ∧ Forall (λ c, is_GET c = true) more
  end.
Proof.
  intros Hrun.
  destruct (is_RequestEndpoint o) eqn:Hre.
  - destruct o; try done. unfold run_op in Hrun.
    apply bind_Some in Hrun as (r & s1 & Hreq & [= <-]).
    destruct (requestEndpoint_runs (createRouter (host cfg) (https cfg))
                (fetcher_of cfg) cfg e p s) as (r' & w' & _ & Heq).
    unfold adminApi in Hreq. rewrite Heq in Hreq. by injection Hreq as _ <-.
  - pose proof (run_op_footprint _ _ _ _ _ Hrun Hre) as [Hcalls _].
    by destruct o.
Qed.

(** X5. A facade built without [cache] never writes the results cache:
    whatever it fetches, the cache is afterwards what it was. *)
Theorem uncached_facade_leaves_resultsCache cfg fuel o s s' :
  cache cfg = false →
  is_RequestEndpoint o = false →
  run_op (adminApi cfg) fuel o s = Some (tt, s') →
  resultsCache s' = resultsCache s.
Proof.
  intros Hcache Hre Hrun.
  pose proof (run_op_footprint _ _ _ _ _ Hrun Hre) as (_ & _ & _ & Hr).
  by rewrite Hcache in Hr.
Qed.

End Footprints.

(** * Further properties of the caches and of the facade *)

Section FacadeBeyond.
Context `{Collaborators}.

(** ** The results cache *)

(** X6. On a miss the caching aggregator is the plain one plus a note: same
    answer, same requests, same gateway afterwards, and the answer filed
    under the URI while every other entry and the two other caches stay
    as they were. *)
Theorem getPaginatedJsonCache_transparent fuel uri s r s0 :
  resultsCache s !! uri = None →
  getPaginatedJson fuel (JStr uri) s = Some (r, s0) →
  ∃ s1,
    getPaginatedJsonCache fuel uri s = Some (r, s1)
    ∧ calls s1 = calls s0
    ∧ world s1 = world s0
    ∧ resultsCache s1 = <[uri := r]> (resultsCache s)
    ∧ pluginSchemasCache s1 = pluginSchemasCache s
    ∧ kongVersionCache s1 = kongVersionCache s.
Proof.
  intros Hmiss Hrun. rewrite getPaginatedJsonCache_miss by done.
  unfold bind. rewrite Hrun. simpl. eexists. split; [done |]. simpl.
  apply getPaginatedJson_frame in Hrun as (Hp & Hv & Hr & _).
  by rewrite Hr.
Qed.

(** X7. What the caching aggregator has answered for a URI, fulfilled or
    rejected, it answers again for that URI after any steps of the process
    other than [requestEndpoint], changes of the gateway included, without
    a request: the answer may be out of date. *)
Theorem getPaginatedJsonCache_serves_first_result fuel uri s r s1 :
  getPaginatedJsonCache fuel uri s = Some (r, s1) →
  ∀ steps s2,
    run s1 steps s2 →
    Forall (λ step, is_RequestEndpoint step.2 = false) steps →
    ∀ fuel', getPaginatedJsonCache fuel' uri s2 = Some (r, s2).
Proof.
  intros Hfirst steps s2 Hsteps Hno fuel'.
  apply getPaginatedJsonCache_hit.
  apply (run_keeps_results _ _ _ Hsteps Hno).
  by apply getPaginatedJsonCache_stores in Hfirst.
Qed.

(** ** requestEndpoint *)

(** X8. [requestEndpoint] hands the URL of the router and the prepared
    options to the transport and answers what the transport answers,
    whatever its status. The options carry the method and an [Accept]
    header; a truthy body is sent serialised with a JSON [Content-Type],
    while a body that is left out, [null], [false], [0] or the empty string
    is not sent at all, and no [Content-Type] with it. *)
Theorem requestEndpoint_sends_prepared_options cfg e p s :
  (∃ r s',
     requestEndpoint (adminApi cfg) e p s = Some (r, s')
     ∧ requester_request (createRouter (host cfg) (https cfg) e) (prepareOptions p)
         (world s) = (r, world s')
     ∧ calls s' = calls s ++ [REQUEST (createRouter (host cfg) (https cfg) e)
                                (prepareOptions p)])
  ∧ opt_method (prepareOptions p) = method p
  ∧ ("Accept", "application/json") ∈ opt_headers (prepareOptions p)
  ∧ (truthy (body p) = true →
       opt_body (prepareOptions p) = Some (JSON_stringify (body p))
       ∧ ("Content-Type", "application/json") ∈ opt_headers (prepareOptions p))
  ∧ (body p ∈ [JUndefined; JNull; JBool false; JNum 0; JStr ""] →
       opt_body (prepareOptions p) = None
       ∧ ∀ v, ("Content-Type", v) ∉ opt_headers (prepareOptions p)).
Proof.
  split.
  { destruct (requestEndpoint_runs (createRouter (host cfg) (https cfg))
                (fetcher_of cfg) cfg e p s) as (r & w & Hreq & Heq).
    eexists r, _. split; [exact Heq |]. by split. }
  unfold prepareOptions. split; [by destruct (truthy (body p)) |]. split.
  { destruct (truthy (body p)); simpl; apply list_elem_of_here. }
  split.
  - intros ->. simpl. split; [done |]. apply list_elem_of_further, list_elem_of_here.
  - intros Hfalsy.
    assert (truthy (body p) = false) as ->.
    { rewrite !elem_of_cons in Hfalsy.
      destruct Hfalsy as [-> | [-> | [-> | [-> | [-> | Hnil]]]]]; try done.
      by apply elem_of_nil in Hnil. }
    simpl. split; [done |]. intros v Hin.
    apply list_elem_of_singleton in Hin. discriminate.
Qed.

(** ** fetchConsumers *)

(** [declare] only adds keys, and adds the username of every declared
    consumer but [__proto__]. *)
Lemma declare_grows declared : ∀ own own',
  declare declared own = Normal own' →
  own ⊆ own'
  ∧ ∀ d k, d ∈ declared → username_key d = Some k → k ≠ "__proto__" → k ∈ own'.
Proof.
  induction declared as [| c rest IH]; intros own own'; simpl.
  - intros [= <-]. split; [done |]. intros d k Hd. by apply elem_of_nil in Hd.
  - unfold username_key.
    destruct (Get c "username") as [username | e] eqn:Hget; simpl; [| done].
    destruct (ToString username) as [k0 | e] eqn:Hkey; simpl; [| done].
    intros (Hsub & Hall)%IH.
    assert (Hown : own ⊆ declare_key k0 own).
    { unfold declare_key.
      destruct (decide (k0 = "__proto__")); [done | apply union_subseteq_r]. }
    split; [by etrans |].
    intros d k [-> | Hd]%elem_of_cons Hk Hne.
    + rewrite Hget in Hk. simpl in Hk. rewrite Hkey in Hk. injection Hk as ->.
      apply Hsub. unfold declare_key.
      destruct (decide (k = "__proto__")); [done |].
      by apply elem_of_union_l, elem_of_singleton_2.
    + by eapply Hall.
Qed.

(** [filter_items] keeps a sublist, with every item that passes the test. *)
Lemma filter_items_keeps keep items : ∀ kept,
  filter_items keep items = Normal kept →
  sublist kept items ∧ ∀ c, c ∈ items → keep c = Normal true → c ∈ kept.
Proof.
  induction items as [| c rest IH]; intros kept; simpl.
  - intros [= <-]. split; [done |]. intros c Hc. by apply elem_of_nil in Hc.
  - destruct (keep c) as [b | e] eqn:Hkeep; simpl; [| done].
    destruct (filter_items keep rest) as [kept' | e]; simpl; [| done].
    destruct (IH kept' eq_refl) as [Hsub Hall].
    intros [= <-]. split.
    + destruct b; [by apply sublist_skip | by apply sublist_cons].
    + intros c' [-> | Hc']%elem_of_cons Hpass.
      * rewrite Hkeep in Hpass. injection Hpass as ->. apply list_elem_of_here.
      * destruct b; [apply list_elem_of_further |]; by apply Hall.
Qed.

(** X9. With [ignoreUndeclaredConsumers] and a declared list, whatever
    [fetchConsumers] answers is a list drawn from the fetched one: nothing
    is added or reordered, and neither [anonymous] nor any fetched
    consumer whose username is that of a declared one is dropped. Nothing
    more is requested for the filtering. *)
Theorem fetchConsumers_filter_keeps cfg declared fuel s fetched s1 result s2 :
  ignoreConsumers cfg = false →
  ignoreUndeclaredConsumers cfg = true →
  consumers cfg = Some declared →
  fetcher_of cfg fuel (createRouter (host cfg) (https cfg) (route "consumers" [])) s
  = Some (Fulfilled (JArr fetched), s1) →
  fetchConsumers (adminApi cfg) fuel s = Some (Fulfilled result, s2) →
  s2 = s1
  ∧ ∃ kept,
      result = JArr kept
      ∧ sublist kept fetched
      ∧ (∀ c, c ∈ fetched → username_key c = Some "anonymous" → c ∈ kept)
      ∧ (∀ c d k, c ∈ fetched → d ∈ declared →
           username_key c = Some k → username_key d = Some k → c ∈ kept).
Proof.
  intros Hall Hflag Hdeclared Hfetch. simpl. rewrite Hall.
  unfold bind. rewrite Hfetch. unfold ret, filter_consumers.
  rewrite Hflag, Hdeclared.
  destruct (declare declared {["anonymous"]}) as [own | e] eqn:Hdeclare; simpl; [| done].
  destruct (filter_items (is_declared own) fetched) as [kept | e] eqn:Hfilter;
    simpl; [| done].
  intros [= <- <-]. split; [done |]. exists kept.
  apply declare_grows in Hdeclare as [Hsub Hown].
  apply filter_items_keeps in Hfilter as [Hsublist Hpass].
  split; [done |]. split; [done |]. split.
  - intros c Hc Hk. apply Hpass; [done |].
    rewrite (is_declared_key _ _ _ Hk). f_equal. unfold declared_read.
    rewrite bool_decide_eq_true_2; [done |]. by apply Hsub, elem_of_singleton_2.
  - intros c d k Hc Hd Hck Hdk. apply Hpass; [done |].
    rewrite (is_declared_key _ _ _ Hck). f_equal. unfold declared_read.
    destruct (decide (k = "__proto__")) as [-> | Hne].
    + rewrite (bool_decide_eq_true_2 ("__proto__" ∈ Object_prototype_names));
        [by rewrite orb_true_r | by apply (bool_decide_unpack _)].
    + rewrite bool_decide_eq_true_2; [done | by eapply Hown].
Qed.

(** X10. The results cache holds the consumers as fetched, not as
    filtered: when a caching facade has fetched them, each caching facade
    on the same router, without [ignoreConsumers], answers its own filter
    of that same list, and the later ones send no request. *)
Theorem fetchConsumers_filters_after_the_cache (A B : config) fuel s all s1 :
  cache A = true → cache B = true →
  ignoreConsumers A = false → ignoreConsumers B = false →
  createRouter (host B) (https B) = createRouter (host A) (https A) →
  fetcher_of A fuel (createRouter (host A) (https A) (route "consumers" [])) s
  = Some (Fulfilled all, s1) →
  fetchConsumers (adminApi A) fuel s = Some (settle (filter_consumers A all), s1)
  ∧ ∀ fuel', fetchConsumers (adminApi B) fuel' s1
             = Some (settle (filter_consumers B all), s1).
Proof.
  intros HA HB HiA HiB Hrouter Hfetch. split.
  - simpl. rewrite HiA. unfold bind. by rewrite Hfetch.
  - intros fuel'. simpl. rewrite HiB, Hrouter. unfold bind.
    unfold fetcher_of in *. rewrite HA in Hfetch. rewrite HB.
    apply getPaginatedJsonCache_stores in Hfetch.
    by rewrite (getPaginatedJsonCache_hit _ _ _ _ Hfetch).
Qed.

End FacadeBeyond.

(** * Plugin schemas and version *)

Section Memoised.
Context `{Collaborators}.

(** The aggregators leave the plugin schemas and the version untouched. *)
Lemma fetcher_leaves_memos cfg fuel uri s r s' :
  fetcher_of cfg fuel uri s = Some (r, s') →
  pluginSchemasCache s' = pluginSchemasCache s
  ∧ kongVersionCache s' = kongVersionCache s.
Proof.
  unfold fetcher_of. destruct (cache cfg).
  - unfold getPaginatedJsonCache. destruct (resultsCache s !! uri) as [hit |].
    + by intros [= _ <-].
    + intros (result & s1 & Hrun & [= _ <-])%bind_Some.
      by apply getPaginatedJson_frame in Hrun as (Hp & Hv & _).
  - intros Hrun. by apply getPaginatedJson_frame in Hrun as (Hp & Hv & _).
Qed.

Lemma Promise_map_schemes_leave_memos fuel schemaRoute names : ∀ s r s',
  Promise_map names (λ plugin, getPluginScheme fuel plugin schemaRoute) s = Some (r, s') →
  pluginSchemasCache s' = pluginSchemasCache s
  ∧ kongVersionCache s' = kongVersionCache s.
Proof.
  induction names as [| plugin names IH]; intros s r s'; simpl.
  - by intros [= _ <-].
  - intros (one & s1 & Hone & Hrest)%bind_Some.
    apply bind_Some in Hone as (scheme & s0 & Hrun & Hret).
    apply getPaginatedJson_frame in Hrun as (Hp & Hv & _).
    assert (s1 = s0) as -> by (destruct scheme; by injection Hret).
    destruct one as [entry | e]; [| injection Hrest as _ <-; done].
    apply bind_Some in Hrest as (others & s2 & Hmap & Hret2).
    apply IH in Hmap as [Hp2 Hv2].
    assert (s' = s2) as -> by (destruct others; by injection Hret2).
    split; congruence.
Qed.

(** X12. A rejection is not remembered by the two memoised fetches: after a
    rejected [fetchPluginSchemas] there are still no schemas in the cache,
    not even those of the plugins that were answered before the failure,
    and after a rejected [fetchKongVersion] the version cache is what it
    was, with nothing usable in it. *)
Theorem rejected_fetch_caches_nothing cfg fuel s e s' :
  (fetchPluginSchemas (adminApi cfg) fuel s = Some (Rejected e, s') →
     pluginSchemasCache s = None ∧ pluginSchemasCache s' = None)
  ∧ (fetchKongVersion (adminApi cfg) fuel s = Some (Rejected e, s') →
     kongVersionCache s' = kongVersionCache s
     ∧ cached_version (kongVersionCache s') = None).
Proof.
  split.
  - simpl. destruct (pluginSchemasCache s) as [schemas |] eqn:Hcache; [done |].
    intros (got & s1 & Hfetch & Hthen)%bind_Some. split; [done |].
    apply fetcher_leaves_memos in Hfetch as [Hp1 _].
    destruct got as [body | e0]; [| injection Hthen as _ <-; congruence].
    destruct (cbind (Get body "enabled_plugins") getEnabledPluginNames)
      as [names | e0]; [| injection Hthen as _ <-; congruence].
    apply bind_Some in Hthen as (all & s2 & Hmap & Hset).
    apply Promise_map_schemes_leave_memos in Hmap as [Hp2 _].
    destruct all as [entries | e0]; [done |].
    injection Hset as _ <-. congruence.
  - simpl. destruct (cached_version (kongVersionCache s)) as [v |] eqn:Hcache; [done |].
    intros (got & s1 & Hfetch & Hthen)%bind_Some.
    apply fetcher_leaves_memos in Hfetch as [_ Hv1].
    destruct got as [body | e0].
    + destruct (cbind (Get body "version") parseVersion) as [v | e0]; [done |].
      injection Hthen as _ <-. by rewrite Hv1.
    + injection Hthen as _ <-. by rewrite Hv1.
Qed.

(** A fulfilled [fetchKongVersion] leaves its answer in the cache. *)
Lemma fetchKongVersion_sets cfg fuel s v s1 :
  fetchKongVersion (adminApi cfg) fuel s = Some (Fulfilled v, s1) →
  kongVersionCache s1 = Some v.
Proof.
  simpl. destruct (kongVersionCache s) as [cached |] eqn:Hcache; simpl.
  - destruct (version_truthy cached) eqn:Hc.
    + by intros [= <- <-].
    + intros (got & s0 & _ & Hthen)%bind_Some.
      destruct got as [body | e]; [| done].
      destruct (cbind (Get body "version") parseVersion) as [v' | e]; [| done].
      by injection Hthen as <- <-.
  - intros (got & s0 & _ & Hthen)%bind_Some.
    destruct got as [body | e]; [| done].
    destruct (cbind (Get body "version") parseVersion) as [v' | e]; [| done].
    by injection Hthen as <- <-.
Qed.

(** A usable version stays through every step of a process. *)
Lemma run_keeps_version s steps s' v :
  run s steps s' →
  kongVersionCache s = Some v → version_truthy v = true →
  kongVersionCache s' = Some v.
Proof.
  induction 1 as [s | s cfg fuel o s1 rest s2 Hop _ IH]; [done |].
  intros Hv Htruthy. apply IH; [| done].
  destruct (is_RequestEndpoint o) eqn:Hre.
  - destruct o; try done. unfold run_op in Hop.
    apply bind_Some in Hop as (r & s0 & Hreq & [= <-]).
    destruct (requestEndpoint_runs (createRouter (host cfg) (https cfg))
                (fetcher_of cfg) cfg e p s) as (r' & w' & _ & Heq).
    unfold adminApi in Hreq. rewrite Heq in Hreq. by injection Hreq as _ <-.
  - pose proof (run_op_footprint _ _ _ _ _ Hop Hre) as (_ & _ & [Hsame | Hnone] & _).
    + congruence.
    + rewrite Hv in Hnone. simpl in Hnone. by rewrite Htruthy in Hnone.
Qed.

(** X13. A fulfilled [fetchKongVersion] leaves the parsed version in the
    cache. If that version is truthy it is the answer of every later call,
    through any facade and after any steps of the process, without a
    request; if it is falsy it is never used: the next call of a facade
    without [cache] has to ask the gateway again. *)
Theorem fetchKongVersion_cached_when_truthy cfg fuel s v s1 :
  fetchKongVersion (adminApi cfg) fuel s = Some (Fulfilled v, s1) →
  kongVersionCache s1 = Some v
  ∧ (version_truthy v = true →
     ∀ steps s2, run s1 steps s2 →
       ∀ cfg' fuel', fetchKongVersion (adminApi cfg') fuel' s2 = Some (Fulfilled v, s2))
  ∧ (version_truthy v = false →
     ∀ cfg', cache cfg' = false → fetchKongVersion (adminApi cfg') 0 s1 = None).
Proof.
  intros Hfetch. apply fetchKongVersion_sets in Hfetch. split; [done |]. split.
  - intros Htruthy steps s2 Hrun cfg' fuel'.
    pose proof (run_keeps_version _ _ _ _ Hrun Hfetch Htruthy) as Hlater.
    simpl. rewrite Hlater. simpl. by rewrite Htruthy.
  - intros Hfalsy cfg' Hcache. simpl. rewrite Hfetch. simpl. rewrite Hfalsy.
    unfold fetcher_of, bind. by rewrite Hcache.
Qed.

End Memoised.

(** * Further scenarios *)

Module FurtherScenarios.
Import Demo.

Local Ltac evaluate := vm_compute; reflexivity.

Lemma page_at_served (uri : string) (body : value) (s : state) :
  serve uri (world s) = success body →
  page_at s (JStr uri) body (got uri s).
Proof.
  intros Hserve. exists (success body). unfold get. simpl. by rewrite Hserve.
Defined.

(** X1 at work: the root of the gateway answers an object without [data]. *)
Lemma getPaginatedJson_body_without_data_witness :
  getPaginatedJson 1 (JStr (base +:+ "/")) start
  = Some (Fulfilled (JObj [("version", JStr "0.11.0")]), got (base +:+ "/") start).
Proof.
  destruct (getPaginatedJson_body_without_data start (JStr (base +:+ "/"))
              (JObj [("version", JStr "0.11.0")]) (got (base +:+ "/") start))
    as (_ & Hplain & _).
  { apply (page_at_served (base +:+ "/") _ start). evaluate. }
  apply (Hplain eq_refl 0).
Defined.

(** X4 at work: fetching the two pages of [/apis] adds two GET requests. *)
Lemma operations_request_log_witness :
  ∃ more,
    calls (after (run_op (adminApi (options_of None true)) 2 FetchApis) start)
    = calls start ++ more
    ∧ Forall (λ c, is_GET c = true) more.
Proof.
  apply (operations_request_log (options_of None true) 2 FetchApis start
           (after (run_op (adminApi (options_of None true)) 2 FetchApis) start)).
  evaluate.
Defined.

(** X5 at work: without [cache] the fetched consumers are not filed. *)
Lemma uncached_facade_leaves_resultsCache_witness :
  resultsCache (after (run_op (adminApi (options_of None false)) 1 FetchConsumers) start)
  = resultsCache start.
Proof.
  apply (uncached_facade_leaves_resultsCache (options_of None false) 1 FetchConsumers);
    evaluate.
Defined.

(** X6 at work: a first caching fetch of [/consumers/alice/acls]. *)
Lemma getPaginatedJsonCache_transparent_witness :
  ∃ s1,
    getPaginatedJsonCache 1 acls start = Some (Fulfilled (JArr []), s1)
    ∧ calls s1 = [GET (JStr acls)]
    ∧ resultsCache s1 = {[acls := Fulfilled (JArr [])]}.
Proof.
  destruct (getPaginatedJsonCache_transparent 1 acls start (Fulfilled (JArr []))
              (got acls start))
    as (s1 & Hrun & Hcalls & _ & Hcache & _); [evaluate | evaluate |].
  exists s1. split; [done |]. split; [by rewrite Hcalls |]. by rewrite Hcache.
Defined.

(** X7 at work: the enabled plugins are fetched through the cache, a second
    plugin is then enabled on the gateway, and the cache still answers the
    first descriptor. *)
Lemma getPaginatedJsonCache_serves_first_result_witness :
  answer (getPaginatedJsonCache 0 (base +:+ "/plugins/enabled"))
    (after (run_op (adminApi (options_of None true)) 0 (@GatewayChange gateway 1))
       (after (getPaginatedJsonCache 1 (base +:+ "/plugins/enabled")) start))
  = Some (Fulfilled (JObj [("enabled_plugins", JArr [JStr "acl"])]))
  ∧ answer (getPaginatedJson 1 (JStr (base +:+ "/plugins/enabled")))
      (after (run_op (adminApi (options_of None true)) 0 (@GatewayChange gateway 1))
         (after (getPaginatedJsonCache 1 (base +:+ "/plugins/enabled")) start))
    = Some (Fulfilled (JObj [("enabled_plugins", JArr [JStr "acl"; JStr "jwt"])])).
Proof.
  split; [| evaluate]. unfold answer.
  rewrite (getPaginatedJsonCache_serves_first_result 1 (base +:+ "/plugins/enabled") start
             (Fulfilled (JObj [("enabled_plugins", JArr [JStr "acl"])]))
             (after (getPaginatedJsonCache 1 (base +:+ "/plugins/enabled")) start)
             ltac:(evaluate)
             [(options_of None true, 0, @GatewayChange gateway 1)]
             (after (run_op (adminApi (options_of None true)) 0 (@GatewayChange gateway 1))
                (after (getPaginatedJsonCache 1 (base +:+ "/plugins/enabled")) start))).
  - reflexivity.
  - eapply run_cons; [evaluate | apply run_nil].
  - by repeat constructor.
Defined.

(** X8 at work: a POST with a body, and one with the body [0]. *)
Lemma requestEndpoint_sends_prepared_options_witness :
  opt_body (prepareOptions post) = Some (JSON_stringify (body post))
  ∧ opt_body (prepareOptions {| method := JStr "PATCH"; body := JNum 0 |}) = None.
Proof.
  split.
  - destruct (requestEndpoint_sends_prepared_options (options_of None false)
                (route "plugins" []) post start) as (_ & _ & _ & Hbody & _).
    by apply Hbody.
  - destruct (requestEndpoint_sends_prepared_options (options_of None false)
                (route "plugins" []) {| method := JStr "PATCH"; body := JNum 0 |} start)
      as (_ & _ & _ & _ & Hnone).
    apply Hnone. simpl. do 3 apply list_elem_of_further. apply list_elem_of_here.
Defined.

(** X9 at work: of the four consumers of the gateway, with [alice]
    declared, those kept include [alice] and [anonymous]. *)
Lemma fetchConsumers_filter_keeps_witness :
  ∃ kept,
    answer (fetchConsumers (adminApi (options_of (Some [consumer "alice"]) false)) 1) start
    = Some (Fulfilled (JArr kept))
    ∧ sublist kept [consumer "alice"; consumer "constructor"; consumer "bob";
                    consumer "anonymous"]
    ∧ consumer "alice" ∈ kept
    ∧ consumer "anonymous" ∈ kept.
Proof.
  destruct (fetchConsumers_filter_keeps (options_of (Some [consumer "alice"]) false)
              [consumer "alice"] 1 start
              [consumer "alice"; consumer "constructor"; consumer "bob";
               consumer "anonymous"]
              (got (base +:+ "/consumers") start)
              (JArr [consumer "alice"; consumer "constructor"; consumer "anonymous"])
              (got (base +:+ "/consumers") start))
    as (_ & kept & Hkept & Hsub & Hanon & Hdeclared);
    [evaluate | evaluate | evaluate | evaluate | evaluate |].
  exists kept. split; [rewrite <- Hkept; evaluate |]. split; [done |]. split.
  - apply (Hdeclared (consumer "alice") (consumer "alice") "alice");
      [apply list_elem_of_here | apply list_elem_of_here | evaluate | evaluate].
  - apply Hanon; [| evaluate]. by repeat constructor.
Defined.

(** X10 at work: one caching facade declares [alice], another declares
    nobody; the second filters the list the first has fetched. *)
Lemma fetchConsumers_filters_after_the_cache_witness :
  fetchConsumers (adminApi (options_of (Some []) true)) 0
    (after (fetchConsumers (adminApi (options_of (Some [consumer "alice"]) true)) 1) start)
  = Some (Fulfilled (JArr [consumer "constructor"; consumer "anonymous"]),
          after (fetchConsumers (adminApi (options_of (Some [consumer "alice"]) true)) 1)
            start).
Proof.
  destruct (fetchConsumers_filters_after_the_cache
              (options_of (Some [consumer "alice"]) true) (options_of (Some []) true)
              1 start
              (JArr [consumer "alice"; consumer "constructor"; consumer "bob";
                     consumer "anonymous"])
              (after (fetchConsumers (adminApi (options_of (Some [consumer "alice"]) true)) 1)
                 start))
    as [_ Hlater]; [evaluate | evaluate | evaluate | evaluate | evaluate | evaluate |].
  rewrite (Hlater 0). evaluate.
Defined.

(** X13 at work: the version of the gateway is parsed once and then
    answered without a request, also after a [requestEndpoint]. *)
Lemma fetchKongVersion_cached_when_truthy_witness :
  fetchKongVersion (adminApi (options_of None true)) 0
    (after (requestEndpoint (adminApi (options_of None false)) (route "plugins" []) post)
       (after (fetchKongVersion (adminApi (options_of None false)) 1) start))
  = Some (Fulfilled "0.11.0",
          after (requestEndpoint (adminApi (options_of None false)) (route "plugins" []) post)
            (after (fetchKongVersion (adminApi (options_of None false)) 1) start)).
Proof.
  destruct (fetchKongVersion_cached_when_truthy (options_of None false) 1 start "0.11.0"
              (after (fetchKongVersion (adminApi (options_of None false)) 1) start))
    as (_ & Hlater & _); [evaluate |].
  apply (Hlater eq_refl
           [(options_of None false, 0, RequestEndpoint (route "plugins" []) post)]).
  eapply run_cons; [evaluate | apply run_nil].
Defined.

End FurtherScenarios.

Module FlakyScenarios.
Import Flaky.

#[local] Existing Instance gateway.

Local Ltac evaluate := vm_compute; reflexivity.

Lemma page_at_flaky (uri : string) (body : value) (s : state) :
  serve uri = Demo.success body →
  page_at s (JStr uri) body (sent s (world s) (GET (JStr uri))).
Proof.
  intros Hserve. exists (Demo.success body). unfold get. simpl. by rewrite Hserve.
Defined.

(** X2 at work: the first page of [/upstreams] is full and its second page
    is missing, so the fetch is rejected with the 404 of the second page
    and the hundred upstreams of the first are lost. *)
Lemma getPaginatedJson_after_full_pages_witness :
  getPaginatedJson 2 (JStr (base +:+ "/upstreams")) start
  = Some (Rejected (HttpError "http://kong:8001/upstreams?offset=100: 404 Not Found"
                      Demo.not_found),
          got (base +:+ "/upstreams?offset=100") (got (base +:+ "/upstreams") start)).
Proof.
  etrans; [| evaluate].
  exact (getPaginatedJson_after_full_pages start (JStr (base +:+ "/upstreams"))
             (replicate 100 (JStr "upstream")) [] (JStr (base +:+ "/upstreams?offset=100"))
             (got (base +:+ "/upstreams") start)
             ltac:(eapply (full_pages_cons _ _ upstreams_page);
                   [ apply (page_at_flaky (base +:+ "/upstreams") upstreams_page start);
                     evaluate
                   | evaluate | evaluate | evaluate | evaluate
                   | vm_compute; lia
                   | apply full_pages_nil ])
             1).
Defined.

(** X3 at work: [/apis] links to itself, and a thousand requests do not
    settle the fetch. *)
Lemma getPaginatedJson_endless_witness :
  getPaginatedJson 1000 (JStr (base +:+ "/apis")) start = None.
Proof.
  apply (getPaginatedJson_endless (λ uri, uri = JStr (base +:+ "/apis"))); [| done].
  intros uri -> s.
  exists looping_page, (replicate 100 (JStr "api")), (JStr (base +:+ "/apis")),
    (sent s (world s) (GET (JStr (base +:+ "/apis")))).
  split; [apply page_at_flaky; evaluate |].
  split; [evaluate |]. split; [evaluate |]. split; [evaluate |].
  split; [evaluate |]. split; [vm_compute; lia | reflexivity].
Defined.

(** X12 at work: the schema of [acl] is answered, that of [oauth2] is
    missing; the fetch is rejected and no schema is kept. *)
Lemma rejected_fetch_caches_nothing_witness :
  fetchPluginSchemas (adminApi options) 1 start
  = Some (Rejected (HttpError "http://kong:8001/plugins/schema/oauth2: 404 Not Found"
                      Demo.not_found),
          got (base +:+ "/plugins/schema/oauth2")
            (got (base +:+ "/plugins/schema/acl")
               (got (base +:+ "/plugins/enabled") start)))
  ∧ pluginSchemasCache
      (got (base +:+ "/plugins/schema/oauth2")
         (got (base +:+ "/plugins/schema/acl")
            (got (base +:+ "/plugins/enabled") start)))
    = None.
Proof.
  assert (Hrun : fetchPluginSchemas (adminApi options) 1 start
                 = Some (Rejected (HttpError
                                     "http://kong:8001/plugins/schema/oauth2: 404 Not Found"
                                     Demo.not_found),
                         got (base +:+ "/plugins/schema/oauth2")
                           (got (base +:+ "/plugins/schema/acl")
                              (got (base +:+ "/plugins/enabled") start)))) by evaluate.
  split; [done |].
  destruct (rejected_fetch_caches_nothing options 1 start
              (HttpError "http://kong:8001/plugins/schema/oauth2: 404 Not Found"
                 Demo.not_found)
              (got (base +:+ "/plugins/schema/oauth2")
                 (got (base +:+ "/plugins/schema/acl")
                    (got (base +:+ "/plugins/enabled") start))))
    as [Hschemas _].
  by apply Hschemas in Hrun as [_ Hnone].
Defined.

End FlakyScenarios.

(** * Envelopes that hold no list *)

Module MalformedScenarios.
Import Malformed.

#[local] Existing Instance gateway.

Local Ltac evaluate := vm_compute; reflexivity.

(** C1 as worded fails off lists. The body of [/numbers] has [7] for [data]
    and a [next] that answers: the guard fails, [next] is fetched, and the
    fetch is rejected with a type error, since a number has no [concat].
    The body of [/nothing] has [null] for [data]: reading its length
    throws, so the fetch is rejected at once, neither answering [data] nor
    fetching [next]. *)
Lemma getPaginatedJson_data_not_a_list :
  hasOwnProperty numbers_body "data" = Normal true
  ∧ hasOwnProperty numbers_body "next" = Normal true
  ∧ getPaginatedJson 1 (JStr more) (got numbers start)
    = Some (Fulfilled (JArr [JStr "item"]), got more (got numbers start))
  ∧ getPaginatedJson 2 (JStr numbers) start
    = Some (Rejected TypeError, got more (got numbers start))
  ∧ hasOwnProperty nothing_body "data" = Normal true
  ∧ hasOwnProperty nothing_body "next" = Normal true
  ∧ getPaginatedJson 2 (JStr nothing) start
    = Some (Rejected TypeError, got nothing start).
Proof. repeat split; evaluate. Qed.

End MalformedScenarios.
